(** * hatenablog2hugo: the entry consumer and the batch loop of [main.go]

    A shallow embedding of [main.go]: the statement tree handed over by the
    mtexport parser, the [Data] record filled from one entry, the two
    consumers [parseFieldSection] and [parseStmt], the renderer [genOutput]
    and the orchestrator [_main].

    The Go standard library ([strings], [time], [path/filepath], [os],
    [text/template]) and the mtexport parser are not part of the repository.
    They enter as the operations of two interfaces, [GoLib] (pure library
    functions) and [GoSys] (the outcome of system calls), and every theorem
    holds for all their implementations.  [TestLib] and [TestSys] are small
    executable implementations used to run the program on concrete input. *)

From Stdlib Require Import String Ascii List Bool Arith Lia.
Import ListNotations.
Open Scope string_scope.

Set Implicit Arguments.

(** ** Strings and errors *)

(** A Go [error] is represented by its message, the text [err.Error()]. *)
Definition error := string.

Definition dquote : string := String "034"%char EmptyString.
Definition newline : string := String "010"%char EmptyString.

(** Byte-wise helpers for strings made of ASCII bytes only. *)
Definition isASCIIbyte (c : ascii) : bool := Nat.ltb (nat_of_ascii c) 128.

Fixpoint isASCII (s : string) : bool :=
  match s with
  | EmptyString => true
  | String c s' => isASCIIbyte c && isASCII s'
  end.

Definition lowerByte (c : ascii) : ascii :=
  let n := nat_of_ascii c in
  if Nat.leb 65 n && Nat.leb n 90 then ascii_of_nat (n + 32) else c.

Fixpoint lowerASCII (s : string) : string :=
  match s with
  | EmptyString => EmptyString
  | String c s' => String (lowerByte c) (lowerASCII s')
  end.

(** The table [asciiSpace] of package [strings]: tab, LF, VT, FF, CR, space. *)
Definition asciiSpace (c : ascii) : bool :=
  let n := nat_of_ascii c in
  Nat.eqb n 9 || Nat.eqb n 10 || Nat.eqb n 11 || Nat.eqb n 12 ||
  Nat.eqb n 13 || Nat.eqb n 32.

Fixpoint trimLeftASCII (s : string) : string :=
  match s with
  | EmptyString => EmptyString
  | String c s' => if asciiSpace c then trimLeftASCII s' else s
  end.

Fixpoint trimRightASCII (s : string) : string :=
  match s with
  | EmptyString => EmptyString
  | String c s' =>
      match trimRightASCII s' with
      | EmptyString => if asciiSpace c then EmptyString else String c EmptyString
      | t => String c t
      end
  end.

Definition trimASCII (s : string) : string := trimRightASCII (trimLeftASCII s).

(** ** The library interface *)

(** The functions of the Go standard library that the consumer calls.
    [time_Location] and [time_Time] stand for [*time.Location] and
    [time.Time]; [zeroTime] is the zero value [time.Time{}]. *)
Class GoLib : Type := {
  time_Location : Type;
  time_Time : Type;
  zeroTime : time_Time;
  strings_TrimSpace : string -> string;
  strings_ToLower : string -> string;
  time_LoadLocation : string -> time_Location + error;
  time_ParseInLocation : string -> string -> time_Location -> time_Time + error;
  time_Format : time_Time -> string -> string;
  filepath_Join : list string -> string;
  filepath_Dir : string -> string
}.

(** What the theorems use of the library beyond its signatures:
    [strings.ToLower] maps a string of ASCII bytes byte by byte. *)
Class GoLibLaws (L : GoLib) : Prop := {
  strings_ToLower_ascii :
    forall s, isASCII s = true -> strings_ToLower s = lowerASCII s
}.

(** ** The statement tree of [mtexport/ast] *)

(** [ast.Stmt] is an interface; the four struct types that implement it are
    the constructors.  The slices [SectionStmts] and [FieldStmts] hold
    [ast.Stmt] values, so any statement can occur in them. *)
#[warning="-register-all"]
Inductive Stmt : Type :=
| EntryStmt (SectionStmts : list Stmt)
| NormalSectionStmt (FieldStmts : list Stmt)
| MultilineSectionStmt (Key : string) (Body : string)
| FieldStmt (Key : string) (Value : string).

Definition isFieldStmt (s : Stmt) : bool :=
  match s with FieldStmt _ _ => true | _ => false end.

Definition isSectionStmt (s : Stmt) : bool :=
  match s with
  | NormalSectionStmt _ | MultilineSectionStmt _ _ => true
  | _ => false
  end.

(** The statements the parser returns: entries whose sections are normal or
    multi-line sections. *)
Definition isParsedEntry (s : Stmt) : bool :=
  match s with
  | EntryStmt sections => forallb isSectionStmt sections
  | _ => false
  end.

(** ** Outcomes *)

(** A Go call that returns [(T, error)] either returns a value, returns an
    error, or panics. *)
Inductive result (A : Type) : Type :=
| Ok (a : A)
| Err (err : error)
| Panic (msg : string).

Arguments Ok {A} a.
Arguments Err {A} err.
Arguments Panic {A} msg.

Definition isPanic {A} (r : result A) : bool :=
  match r with Panic _ => true | _ => false end.

(** ** The world: a trace of system calls *)

Inductive Event : Type :=
| Println (line : string)
| Open (name : string) (err : option error)
| Close (name : string)
| MkdirAll (path : string) (err : option error)
| Create (name : string) (err : option error)
| Execute (name : string) (text : string) (err : option error).

Definition World := list Event.

Definition isFileEvent (e : Event) : bool :=
  match e with
  | MkdirAll _ _ | Create _ _ | Execute _ _ _ => true
  | _ => false
  end.

(** The outcome of each system call, given the calls made so far, and the
    parser of mtexport applied to an opened file. *)
Class GoSys : Type := {
  os_Open : World -> string -> option error;
  parser_Parse : World -> string -> list string -> list Stmt + error;
  os_MkdirAll : World -> string -> option error;
  os_Create : World -> string -> option error;
  template_Execute : World -> string -> string -> option error
}.

(** A computation on the world. *)
Definition M (A : Type) : Type := World -> result A * World.

Definition ret {A} (a : A) : M A := fun w => (Ok a, w).

Definition bind {A B} (m : M A) (k : A -> M B) : M B :=
  fun w =>
    match m w with
    | (Ok a, w') => k a w'
    | (Err e, w') => (Err e, w')
    | (Panic p, w') => (Panic p, w')
    end.

Notation "x <- m ;; k" := (bind m (fun x => k))
  (at level 61, m at next level, right associativity).

Definition emit (e : Event) : M unit := fun w => (Ok tt, (w ++ [e])%list).

(** [call mk r]: a system call whose outcome is [r], recorded as [mk r]. *)
Definition call (mk : option error -> Event) (r : World -> option error) : M unit :=
  fun w =>
    match r w with
    | None => (Ok tt, (w ++ [mk None])%list)
    | Some e => (Err e, (w ++ [mk (Some e)])%list)
    end.

(** [defer f.Close()]: the file is closed when the body is left, also by an
    error or a panic. *)
Definition defer_Close {A} (name : string) (body : M A) : M A :=
  fun w => let (r, w') := body w in (r, (w' ++ [Close name])%list).

Definition log_Println (line : string) : M unit := emit (Println line).

Definition log_lines (lines : list string) : World := map Println lines.

(** The command-line flags [-input], [-outputDir] and [-timezone]. *)
Record Flags : Type := mkFlags {
  input : string;
  outputDir : string;
  timezone : string
}.

Definition default_Flags : Flags := mkFlags EmptyString "content" "Asia/Tokyo".

Section Program.

Context {L : GoLib} {S : GoSys}.

(** ** [Data] *)

Record Data : Type := mkData {
  Basename : string;
  Tags : list string;
  Draft : bool;
  Title : string;
  Date : time_Time;
  Content : string
}.

(** [&Data{}] *)
Definition Data_zero : Data :=
  mkData EmptyString [] false EmptyString zeroTime EmptyString.

Definition set_Basename (v : string) (d : Data) : Data :=
  mkData v (Tags d) (Draft d) (Title d) (Date d) (Content d).
Definition set_Tags (v : list string) (d : Data) : Data :=
  mkData (Basename d) v (Draft d) (Title d) (Date d) (Content d).
Definition set_Draft (v : bool) (d : Data) : Data :=
  mkData (Basename d) (Tags d) v (Title d) (Date d) (Content d).
Definition set_Title (v : string) (d : Data) : Data :=
  mkData (Basename d) (Tags d) (Draft d) v (Date d) (Content d).
Definition set_Date (v : time_Time) (d : Data) : Data :=
  mkData (Basename d) (Tags d) (Draft d) (Title d) v (Content d).
Definition set_Content (v : string) (d : Data) : Data :=
  mkData (Basename d) (Tags d) (Draft d) (Title d) (Date d) v.

(** [strings.Join]: nothing for no element, the element alone for one,
    otherwise the first element followed by separator and element for each
    of the others. *)
Definition strings_Join (elems : list string) (sep : string) : string :=
  match elems with
  | [] => EmptyString
  | [e] => e
  | e :: rest => fold_left (fun b s => b ++ sep ++ s) rest e
  end.

(** [fmt.Sprintf] with the format of [TagsAsString]: the operand between
    two double quotes. *)
Definition Sprintf_quoted (tag : string) : string := dquote ++ tag ++ dquote.

(** [func (d *Data) TagsAsString() string] *)
Definition TagsAsString (d : Data) : string :=
  let quotedTags :=
    fold_left (fun quotedTags tag => (quotedTags ++ [Sprintf_quoted tag])%list)
              (Tags d) [] in
  "[" ++ strings_Join quotedTags ", " ++ "]".

(** [func (d *Data) MarkdownFilename(outputDir string) string] *)
Definition MarkdownFilename (d : Data) (outputDir : string) : string :=
  filepath_Join [outputDir; Basename d ++ ".md"].

(** The text [contentTmpl] writes for [data]: the front matter between two
    [+++] lines, then the content. *)
Definition contentTmpl (data : Data) : string :=
  "+++" ++ newline ++
  "date  = " ++ dquote ++ time_Format (Date data) "2006-01-02T15:04:05-07:00"
             ++ dquote ++ newline ++
  "draft = " ++ (if Draft data then "true" else "false") ++ newline ++
  "title = " ++ dquote ++ Title data ++ dquote ++ newline ++
  "tags  = " ++ TagsAsString data ++ newline ++
  "+++" ++ newline ++
  Content data ++ newline.

(** ** The consumer, for the location held by the global [location] *)

Section Consumer.

Variable location : time_Location.

(** [func parseFieldSection(stmt *ast.NormalSectionStmt, data *Data) error],
    on the slice [stmt.FieldStmts].  [data] is updated in place, so the
    function returns the record as it is when the call returns, next to the
    error ([None] is [nil]). *)
Fixpoint parseFieldSection (FieldStmts : list Stmt) (data : Data)
  : Data * option error :=
  match FieldStmts with
  | [] => (data, None)
  | _stmt :: rest =>
      match _stmt with
      | FieldStmt Key Value =>
          let value := strings_TrimSpace Value in
          if Key =? "TITLE" then
            parseFieldSection rest (set_Title value data)
          else if Key =? "STATUS" then
            let status := strings_ToLower value in
            if status =? "draft" then
              parseFieldSection rest (set_Draft true data)
            else if status =? "publish" then
              parseFieldSection rest (set_Draft false data)
            else
              (data, Some ("not supported status: " ++ value))
          else if Key =? "DATE" then
            match time_ParseInLocation "01/02/2006 15:04:05" value location with
            | inr err => (data, Some err)
            | inl t => parseFieldSection rest (set_Date t data)
            end
          else if Key =? "BASENAME" then
            parseFieldSection rest (set_Basename value data)
          else if Key =? "CATEGORY" then
            parseFieldSection rest (set_Tags (Tags data ++ [value])%list data)
          else
            parseFieldSection rest data
      | _ => (data, None)
      end
  end.

(** A result together with the lines written to the log on the way. *)
Definition logged (A : Type) : Type := list string * result A.

Definition after_Println {A} (line : string) (p : logged A) : logged A :=
  (line :: fst p, snd p).

(** The loop of [parseStmt] over [entry.SectionStmts]. *)
Fixpoint parseSections (SectionStmts : list Stmt) (data : Data) : logged Data :=
  match SectionStmts with
  | [] => ([], Ok data)
  | _stmt :: rest =>
      match _stmt with
      | NormalSectionStmt FieldStmts =>
          match parseFieldSection FieldStmts data with
          | (_, Some err) => ([], Err err)
          | (data', None) => parseSections rest data'
          end
      | MultilineSectionStmt Key Body =>
          if Key =? "BODY" then
            parseSections rest (set_Content Body data)
          else if Key =? "COMMENT" then
            after_Println "COMMENT is ignored" (parseSections rest data)
          else if Key =? "EXCERPT" then
            after_Println "EXCERPT is ignored" (parseSections rest data)
          else
            ([], Err ("not supported multiline section key: " ++ Key))
      | _ => ([], Panic "not reach")
      end
  end.

(** [func parseStmt(stmt ast.Stmt)], which returns a [*Data] and an
    [error].  The type assertion
    of [stmt] to an entry statement panics on any other statement. *)
Definition parseStmt (stmt : Stmt) : logged Data :=
  match stmt with
  | EntryStmt SectionStmts => parseSections SectionStmts Data_zero
  | _ => ([], Panic "interface conversion: ast.Stmt is not *ast.EntryStmt")
  end.

Definition run_logged {A} (p : logged A) : M A :=
  fun w => (snd p, (w ++ log_lines (fst p))%list).

(** [func genOutput(stmt ast.Stmt, outputDir string) error] *)
Definition genOutput (stmt : Stmt) (outputDir : string) : M unit :=
  data <- run_logged (parseStmt stmt) ;;
  let output := MarkdownFilename data outputDir in
  _ <- call (MkdirAll (filepath_Dir output))
            (fun w => os_MkdirAll w (filepath_Dir output)) ;;
  _ <- call (Create output) (fun w => os_Create w output) ;;
  defer_Close output
    (call (Execute output (contentTmpl data))
          (fun w => template_Execute w output (contentTmpl data))).

(** The loop of [_main] over the parsed statements: an error of [genOutput]
    is logged and the loop goes on. *)
Fixpoint _main_loop (stmts : list Stmt) (outputDir : string) : M unit :=
  match stmts with
  | [] => ret tt
  | stmt :: rest =>
      fun w =>
        match genOutput stmt outputDir w with
        | (Ok _, w') => _main_loop rest outputDir w'
        | (Err err, w') =>
            (_ <- log_Println ("got error: " ++ err) ;;
             _main_loop rest outputDir) w'
        | (Panic p, w') => (Panic p, w')
        end
  end.

End Consumer.

(** ** The run *)

(** [func _main() error], for the values of the three flags. *)
Definition _main (flags : Flags) : M unit :=
  fun w =>
    match time_LoadLocation (timezone flags) with
    | inr err => (Err err, w)
    | inl location =>
        (_ <- call (Open (input flags)) (fun w => os_Open w (input flags)) ;;
         defer_Close (input flags)
           (fun w =>
              match parser_Parse w (input flags) ["IMAGE"] with
              | inr err => (Err err, w)
              | inl stmts => _main_loop location stmts (outputDir flags) w
              end)) w
    end.

End Program.

(** ** The tag list as the specification words it *)

(** Each tag between double quotes, the tags separated by a comma and a
    space. *)
Fixpoint quoted_comma_separated (tags : list string) : string :=
  match tags with
  | [] => EmptyString
  | [tag] => dquote ++ tag ++ dquote
  | tag :: rest => dquote ++ tag ++ dquote ++ ", " ++ quoted_comma_separated rest
  end.

Definition bracketed_tags (tags : list string) : string :=
  "[" ++ quoted_comma_separated tags ++ "]".

(** The raw values of the [CATEGORY] fields of a field list, in order. *)
Fixpoint categoryValues (FieldStmts : list Stmt) : list string :=
  match FieldStmts with
  | [] => []
  | FieldStmt Key Value :: rest =>
      if Key =? "CATEGORY" then Value :: categoryValues rest
      else categoryValues rest
  | _ :: rest => categoryValues rest
  end.

(** The raw [CATEGORY] values of all normal sections of an entry, in order. *)
Fixpoint entryCategoryValues (SectionStmts : list Stmt) : list string :=
  match SectionStmts with
  | [] => []
  | NormalSectionStmt FieldStmts :: rest =>
      (categoryValues FieldStmts ++ entryCategoryValues rest)%list
  | _ :: rest => entryCategoryValues rest
  end.

(** Sections as the parser builds them: a normal section holds field
    statements only. *)
Definition isParsedSection (s : Stmt) : bool :=
  match s with
  | NormalSectionStmt FieldStmts => forallb isFieldStmt FieldStmts
  | MultilineSectionStmt _ _ => true
  | _ => false
  end.

(** The keys [parseFieldSection] interprets. *)
Definition consumedKeys : list string :=
  ["TITLE"; "STATUS"; "DATE"; "BASENAME"; "CATEGORY"].

(** ** Executable implementations of the two interfaces *)

Definition isDigit (c : ascii) : bool :=
  let n := nat_of_ascii c in Nat.leb 48 n && Nat.leb n 57.

(** [value] has a digit wherever [layout] has one and the same byte
    elsewhere. *)
Fixpoint sameShape (layout value : string) : bool :=
  match layout, value with
  | EmptyString, EmptyString => true
  | String l layout', String v value' =>
      (if isDigit l then isDigit v else Ascii.eqb l v) && sameShape layout' value'
  | _, _ => false
  end.

Fixpoint hasSlash (s : string) : bool :=
  match s with
  | EmptyString => false
  | String c s' => Ascii.eqb c "/"%char || hasSlash s'
  end.

(** The part of a path before its last slash. *)
Fixpoint dirOf (path : string) : string :=
  match path with
  | EmptyString => EmptyString
  | String c path' => if hasSlash path' then String c (dirOf path') else EmptyString
  end.

(** A library for strings of ASCII bytes.  A location is its name, a time is
    the text it was parsed from followed by the location. *)
Definition TestLib : GoLib := {|
  time_Location := string;
  time_Time := string;
  zeroTime := "0001-01-01 00:00:00 UTC";
  strings_TrimSpace := trimASCII;
  strings_ToLower := lowerASCII;
  time_LoadLocation := fun name =>
    if name =? "Nowhere/None" then inr ("unknown time zone " ++ name)
    else inl name;
  time_ParseInLocation := fun layout value loc =>
    if sameShape layout value then inl (value ++ " " ++ loc)
    else inr ("parsing time " ++ dquote ++ value ++ dquote ++ " as " ++
              dquote ++ layout ++ dquote);
  time_Format := fun t _ => t;
  filepath_Join := fun elems =>
    match elems with
    | [] => EmptyString
    | e :: rest => fold_left (fun b s => b ++ "/" ++ s) rest e
    end;
  filepath_Dir := dirOf
|}.

(** A system where every call succeeds and the input file [name] parses to
    [files name]. *)
Definition TestSys (files : string -> list Stmt + error) : GoSys := {|
  os_Open := fun _ _ => None;
  parser_Parse := fun _ name _ => files name;
  os_MkdirAll := fun _ _ => None;
  os_Create := fun _ _ => None;
  template_Execute := fun _ _ _ => None
|}.

Definition Tokyo : @time_Location TestLib := "Asia/Tokyo".

(** An entry of a sample export, and entries the consumer rejects. *)
Definition helloSections : list Stmt :=
  [NormalSectionStmt
     [FieldStmt "AUTHOR" " someone";
      FieldStmt "TITLE" " Hello ";
      FieldStmt "BASENAME" " 2016/01/02/hello";
      FieldStmt "STATUS" " Publish";
      FieldStmt "DATE" " 01/02/2016 15:04:05";
      FieldStmt "CATEGORY" " go";
      FieldStmt "CATEGORY" " hugo";
      FieldStmt "CATEGORY" " go"];
   MultilineSectionStmt "BODY" "line one";
   MultilineSectionStmt "COMMENT" "nice"].

Definition helloEntry : Stmt := EntryStmt helloSections.

Definition badStatusEntry : Stmt :=
  EntryStmt
    [NormalSectionStmt
       [FieldStmt "TITLE" " Bad"; FieldStmt "STATUS" " Future";
        FieldStmt "CATEGORY" " go"]].

Definition sampleFiles (name : string) : list Stmt + error :=
  if name =? "export.txt" then inl [badStatusEntry; helloEntry]
  else inr "line 3: unterminated multiline section".

(** A system whose input file cannot be opened. *)
Definition TestSysNoInput : GoSys := {|
  os_Open := fun _ name => Some ("open " ++ name ++ ": no such file or directory");
  parser_Parse := fun _ _ _ => inl [];
  os_MkdirAll := fun _ _ => None;
  os_Create := fun _ _ => None;
  template_Execute := fun _ _ _ => None
|}.

(** A batch with a statement that is not an entry, and an entry with a title
    only. *)
Definition strayStmt : Stmt := FieldStmt "TITLE" " stray".

Definition strayFiles (name : string) : list Stmt + error :=
  inl ([helloEntry] ++ strayStmt :: [helloEntry])%list.

Definition noteSections : list Stmt :=
  [NormalSectionStmt [FieldStmt "TITLE" " Note"]].

(** ** What an entry holds, read off the statement tree *)

(** The raw value of the last field with key [key] in a field list. *)
Fixpoint lastValue (key : string) (FieldStmts : list Stmt) : option string :=
  match FieldStmts with
  | [] => None
  | FieldStmt Key Value :: rest =>
      match lastValue key rest with
      | Some v => Some v
      | None => if Key =? key then Some Value else None
      end
  | _ :: rest => lastValue key rest
  end.

(** The fields of all normal sections of an entry, in order. *)
Fixpoint entryFieldStmts (SectionStmts : list Stmt) : list Stmt :=
  match SectionStmts with
  | [] => []
  | NormalSectionStmt FieldStmts :: rest =>
      (FieldStmts ++ entryFieldStmts rest)%list
  | _ :: rest => entryFieldStmts rest
  end.

(** The body of the last BODY section of an entry. *)
Fixpoint lastBody (SectionStmts : list Stmt) : option string :=
  match SectionStmts with
  | [] => None
  | MultilineSectionStmt Key Body :: rest =>
      match lastBody rest with
      | Some b => Some b
      | None => if Key =? "BODY" then Some Body else None
      end
  | _ :: rest => lastBody rest
  end.

(** One line for each COMMENT and EXCERPT section, in order. *)
Fixpoint ignoredLines (SectionStmts : list Stmt) : list string :=
  match SectionStmts with
  | [] => []
  | MultilineSectionStmt Key _ :: rest =>
      if (Key =? "COMMENT") || (Key =? "EXCERPT")
      then (Key ++ " is ignored") :: ignoredLines rest
      else ignoredLines rest
  | _ :: rest => ignoredLines rest
  end.

Definition isEntryStmt (s : Stmt) : bool :=
  match s with EntryStmt _ => true | _ => false end.

(** ** Counting files in a trace *)

(** The files opened or created with success, and the files closed. *)
Fixpoint opened (w : World) : nat :=
  match w with
  | [] => 0
  | Open _ None :: w' => Datatypes.S (opened w')
  | Create _ None :: w' => Datatypes.S (opened w')
  | _ :: w' => opened w'
  end.

Fixpoint closed (w : World) : nat :=
  match w with
  | [] => 0
  | Close _ :: w' => Datatypes.S (closed w')
  | _ :: w' => closed w'
  end.

(** * Theorems *)

Unset Implicit Arguments.

(** ** Strings and lists *)

Lemma append_assoc (a b c : string) : (a ++ b) ++ c = a ++ (b ++ c).
Proof.
  induction a as [|x a IH]; simpl; [reflexivity | now rewrite IH].
Qed.

Lemma append_nil_r (a : string) : a ++ EmptyString = a.
Proof.
  induction a as [|x a IH]; simpl; [reflexivity | now rewrite IH].
Qed.

Lemma fold_left_snoc {A B} (f : A -> B) (l : list A) (acc : list B) :
  fold_left (fun acc a => (acc ++ [f a])%list) l acc = (acc ++ map f l)%list.
Proof.
  revert acc; induction l as [|a l IH]; intros acc; simpl.
  - now rewrite app_nil_r.
  - rewrite IH, <- app_assoc. reflexivity.
Qed.

Lemma fold_left_sep (sep : string) (l : list string) (b : string) :
  fold_left (fun b s => b ++ sep ++ s) l b =
  b ++ fold_right (fun s r => sep ++ s ++ r) EmptyString l.
Proof.
  revert b; induction l as [|s l IH]; intros b; simpl.
  - now rewrite append_nil_r.
  - rewrite IH, !append_assoc. reflexivity.
Qed.

Lemma strings_Join_cons (e : string) (l : list string) (sep : string) :
  strings_Join (e :: l) sep =
  e ++ fold_right (fun s r => sep ++ s ++ r) EmptyString l.
Proof.
  destruct l as [|e' l]; simpl.
  - now rewrite append_nil_r.
  - rewrite fold_left_sep, !append_assoc. reflexivity.
Qed.

Lemma quoted_comma_separated_cons (tag : string) (rest : list string) :
  quoted_comma_separated (tag :: rest) =
  Sprintf_quoted tag ++
  fold_right (fun s r => ", " ++ s ++ r) EmptyString (map Sprintf_quoted rest).
Proof.
  revert tag; induction rest as [|tag' rest IH]; intros tag.
  - simpl. unfold Sprintf_quoted. now rewrite append_nil_r.
  - change (quoted_comma_separated (tag :: tag' :: rest))
      with (dquote ++ tag ++ dquote ++ ", " ++ quoted_comma_separated (tag' :: rest)).
    rewrite IH. unfold Sprintf_quoted. simpl map. simpl fold_right.
    rewrite !append_assoc. reflexivity.
Qed.

Section TagsTheorems.

Context {L : GoLib}.

(** C10: for every [Data], [TagsAsString] is the tag list written with each
    tag between double quotes, the tags joined by a comma and a space, the
    whole between square brackets; it is exactly the two brackets when there
    is no tag, and the text of the example for the tags a and b. *)
Theorem TagsAsString_quoted_joined_bracketed :
  (forall d : Data, TagsAsString d = bracketed_tags (Tags d)) /\
  (forall d : Data, TagsAsString (set_Tags [] d) = "[]") /\
  (forall d : Data,
      TagsAsString (set_Tags ["a"; "b"] d) =
      "[" ++ dquote ++ "a" ++ dquote ++ ", " ++ dquote ++ "b" ++ dquote ++ "]").
Proof.
  assert (H : forall d : Data, TagsAsString d = bracketed_tags (Tags d)).
  { intros d. unfold TagsAsString, bracketed_tags.
    rewrite fold_left_snoc. simpl app.
    destruct (Tags d) as [|tag rest]; [reflexivity|].
    simpl map. rewrite strings_Join_cons, quoted_comma_separated_cons.
    reflexivity. }
  split; [exact H|]. split; intros d; rewrite H; reflexivity.
Qed.

End TagsTheorems.

(** ** The field consumer *)

Section FieldTheorems.

Context {L : GoLib}.
Variable location : time_Location.

Ltac key_cases :=
  repeat match goal with
         | |- context [String.eqb ?a ?b] => destruct (String.eqb_spec a b)
         | |- context [time_ParseInLocation ?l ?v ?loc] =>
             destruct (time_ParseInLocation l v loc)
         end.

Lemma parseFieldSection_not_field (x : Stmt) (rest : list Stmt) (data : Data) :
  isFieldStmt x = false ->
  parseFieldSection location (x :: rest) data = (data, None).
Proof.
  destruct x; simpl; intros H; try reflexivity; discriminate H.
Qed.

Lemma parseFieldSection_other_key (Key Value : string) (rest : list Stmt)
      (data : Data) :
  ~ In Key consumedKeys ->
  parseFieldSection location (FieldStmt Key Value :: rest) data =
  parseFieldSection location rest data.
Proof.
  intros H. simpl.
  destruct (String.eqb_spec Key "TITLE") as [E|_];
    [exfalso; apply H; rewrite E; simpl; tauto|].
  destruct (String.eqb_spec Key "STATUS") as [E|_];
    [exfalso; apply H; rewrite E; simpl; tauto|].
  destruct (String.eqb_spec Key "DATE") as [E|_];
    [exfalso; apply H; rewrite E; simpl; tauto|].
  destruct (String.eqb_spec Key "BASENAME") as [E|_];
    [exfalso; apply H; rewrite E; simpl; tauto|].
  destruct (String.eqb_spec Key "CATEGORY") as [E|_];
    [exfalso; apply H; rewrite E; simpl; tauto|].
  reflexivity.
Qed.

(** Processing a list of fields is processing a prefix and, when the prefix
    ran to its end, the rest. *)
Lemma parseFieldSection_app (pre post : list Stmt) (data : Data) :
  forallb isFieldStmt pre = true ->
  parseFieldSection location (pre ++ post) data =
  match parseFieldSection location pre data with
  | (data', None) => parseFieldSection location post data'
  | (data', Some err) => (data', Some err)
  end.
Proof.
  revert data; induction pre as [|x pre IH]; intros data Hf; [reflexivity|].
  simpl in Hf. apply andb_true_iff in Hf as [Hx Hpre].
  destruct x as [| | |Key Value]; try discriminate Hx.
  simpl. key_cases; try reflexivity; apply IH; assumption.
Qed.

(** C8: a field whose key is none of TITLE, STATUS, DATE, BASENAME and
    CATEGORY is accepted: the consumer goes on with the following fields on an
    unchanged [Data], and a section made of that field alone returns no error
    and the [Data] it was given. *)
Theorem unknown_key_accepted_data_unchanged
        (Key Value : string) (rest : list Stmt) (data : Data) :
  ~ In Key consumedKeys ->
  parseFieldSection location (FieldStmt Key Value :: rest) data =
    parseFieldSection location rest data /\
  parseFieldSection location [FieldStmt Key Value] data = (data, None).
Proof.
  intros H. split.
  - apply parseFieldSection_other_key, H.
  - rewrite parseFieldSection_other_key by exact H. reflexivity.
Qed.

(** C9: at an element that is not a field statement the consumer returns at
    once with no error: the section gives what the elements before that one
    give, whatever follows it. *)
Theorem non_field_element_ends_section
        (pre : list Stmt) (x : Stmt) (post : list Stmt) (data : Data) :
  isFieldStmt x = false ->
  parseFieldSection location (x :: post) data = (data, None) /\
  parseFieldSection location (pre ++ x :: post) data =
    parseFieldSection location pre data.
Proof.
  intros Hx. split; [apply parseFieldSection_not_field, Hx|].
  revert data; induction pre as [|y pre IH]; intros data.
  - apply parseFieldSection_not_field, Hx.
  - destruct y as [| | |Key Value]; try reflexivity.
    simpl. key_cases; try reflexivity; apply IH.
Qed.

End FieldTheorems.

(** ** Entries, the renderer and the loop *)

Section ConsumerTheorems.

Context {L : GoLib} {S : GoSys}.
Variable location : time_Location.

Ltac field_cases :=
  repeat match goal with
         | |- context [String.eqb ?a ?b] => destruct (String.eqb_spec a b)
         | |- context [time_ParseInLocation ?l ?v ?loc] =>
             destruct (time_ParseInLocation l v loc)
         end.

Lemma after_Println_snd {A} (line : string) (p : logged A) :
  snd (after_Println line p) = snd p.
Proof. reflexivity. Qed.

(** Where the values stored by a field section come from. *)
Lemma parseFieldSection_provenance (FieldStmts : list Stmt) :
  forall data : Data,
    let data' := fst (parseFieldSection location FieldStmts data) in
    (Title data' = Title data \/
     exists v, In (FieldStmt "TITLE" v) FieldStmts /\
               Title data' = strings_TrimSpace v) /\
    (Basename data' = Basename data \/
     exists v, In (FieldStmt "BASENAME" v) FieldStmts /\
               Basename data' = strings_TrimSpace v) /\
    (forall tag, In tag (Tags data') ->
       In tag (Tags data) \/
       exists v, In (FieldStmt "CATEGORY" v) FieldStmts /\
                 tag = strings_TrimSpace v).
Proof.
  induction FieldStmts as [|x rest IH]; intros data; cbv zeta.
  - simpl. auto.
  - assert (Hweak : forall d0 : Data,
      Title d0 = Title data \/ Title d0 = Title data ->
      Basename d0 = Basename data ->
      (forall tag, In tag (Tags d0) -> In tag (Tags data)) ->
      let d1 := fst (parseFieldSection location rest d0) in
      (Title d1 = Title data \/
       exists v, In (FieldStmt "TITLE" v) (x :: rest) /\
                 Title d1 = strings_TrimSpace v) /\
      (Basename d1 = Basename data \/
       exists v, In (FieldStmt "BASENAME" v) (x :: rest) /\
                 Basename d1 = strings_TrimSpace v) /\
      (forall tag, In tag (Tags d1) ->
         In tag (Tags data) \/
         exists v, In (FieldStmt "CATEGORY" v) (x :: rest) /\
                   tag = strings_TrimSpace v)).
    { intros d0 Ht Hb Hg. cbv zeta.
      destruct (IH d0) as (IT & IB & IG). repeat split.
      - destruct IT as [E|(v & Hin & E)].
        + left. rewrite E. tauto.
        + right. exists v. split; [right; exact Hin|exact E].
      - destruct IB as [E|(v & Hin & E)].
        + left. congruence.
        + right. exists v. split; [right; exact Hin|exact E].
      - intros tag Hin. destruct (IG tag Hin) as [H0|(v & Hv & E)].
        + left. auto.
        + right. exists v. split; [right; exact Hv|exact E]. }
    destruct x as [| | |Key Value]; try (simpl; auto; fail).
    simpl parseFieldSection.
    destruct (String.eqb_spec Key "TITLE") as [->|_].
    { destruct (IH (set_Title (strings_TrimSpace Value) data)) as (IT & IB & IG).
      repeat split.
      - right. destruct IT as [E|(v & Hin & E)].
        + exists Value. split; [left; reflexivity|exact E].
        + exists v. split; [right; exact Hin|exact E].
      - destruct IB as [E|(v & Hin & E)].
        + left. exact E.
        + right. exists v. split; [right; exact Hin|exact E].
      - intros tag Hin. destruct (IG tag Hin) as [H0|(v & Hv & E)].
        + left. exact H0.
        + right. exists v. split; [right; exact Hv|exact E]. }
    destruct (String.eqb_spec Key "STATUS") as [->|_].
    { destruct (String.eqb_spec (strings_ToLower (strings_TrimSpace Value)) "draft").
      { apply Hweak; simpl; auto. }
      destruct (String.eqb_spec (strings_ToLower (strings_TrimSpace Value)) "publish").
      { apply Hweak; simpl; auto. }
      simpl. auto. }
    destruct (String.eqb_spec Key "DATE") as [->|_].
    { destruct (time_ParseInLocation "01/02/2006 15:04:05"
                  (strings_TrimSpace Value) location).
      - apply Hweak; simpl; auto.
      - simpl. auto. }
    destruct (String.eqb_spec Key "BASENAME") as [->|_].
    { destruct (IH (set_Basename (strings_TrimSpace Value) data)) as (IT & IB & IG).
      repeat split.
      - destruct IT as [E|(v & Hin & E)].
        + left. exact E.
        + right. exists v. split; [right; exact Hin|exact E].
      - right. destruct IB as [E|(v & Hin & E)].
        + exists Value. split; [left; reflexivity|exact E].
        + exists v. split; [right; exact Hin|exact E].
      - intros tag Hin. destruct (IG tag Hin) as [H0|(v & Hv & E)].
        + left. exact H0.
        + right. exists v. split; [right; exact Hv|exact E]. }
    destruct (String.eqb_spec Key "CATEGORY") as [->|_].
    { destruct (IH (set_Tags (Tags data ++ [strings_TrimSpace Value])%list data))
        as (IT & IB & IG).
      repeat split.
      - destruct IT as [E|(v & Hin & E)].
        + left. exact E.
        + right. exists v. split; [right; exact Hin|exact E].
      - destruct IB as [E|(v & Hin & E)].
        + left. exact E.
        + right. exists v. split; [right; exact Hin|exact E].
      - intros tag Hin. destruct (IG tag Hin) as [H0|(v & Hv & E)].
        + simpl in H0. apply in_app_or in H0 as [H0|[H0|[]]].
          * left. exact H0.
          * right. exists Value. split; [left; reflexivity|symmetry; exact H0].
        + right. exists v. split; [right; exact Hv|exact E]. }
    apply Hweak; auto.
Qed.

(** C7: the consumer trims the raw value of a field itself.  For every raw
    value, the title, the base name and the appended tag are the trimmed
    value, and the status and the date are read from the trimmed value; after
    any field section the title and the base name are the old ones or the
    trimmed value of a TITLE or BASENAME field of the section, and every tag
    is an old one or the trimmed value of a CATEGORY field of the section. *)
Theorem stored_values_are_trimmed :
  (forall (Value : string) (rest : list Stmt) (data : Data),
      let value := strings_TrimSpace Value in
      parseFieldSection location (FieldStmt "TITLE" Value :: rest) data =
        parseFieldSection location rest (set_Title value data) /\
      parseFieldSection location (FieldStmt "BASENAME" Value :: rest) data =
        parseFieldSection location rest (set_Basename value data) /\
      parseFieldSection location (FieldStmt "CATEGORY" Value :: rest) data =
        parseFieldSection location rest
          (set_Tags (Tags data ++ [value])%list data) /\
      parseFieldSection location (FieldStmt "STATUS" Value :: rest) data =
        (if strings_ToLower value =? "draft" then
           parseFieldSection location rest (set_Draft true data)
         else if strings_ToLower value =? "publish" then
           parseFieldSection location rest (set_Draft false data)
         else (data, Some ("not supported status: " ++ value))) /\
      parseFieldSection location (FieldStmt "DATE" Value :: rest) data =
        match time_ParseInLocation "01/02/2006 15:04:05" value location with
        | inr err => (data, Some err)
        | inl t => parseFieldSection location rest (set_Date t data)
        end) /\
  (forall (FieldStmts : list Stmt) (data : Data),
      let data' := fst (parseFieldSection location FieldStmts data) in
      (Title data' = Title data \/
       exists v, In (FieldStmt "TITLE" v) FieldStmts /\
                 Title data' = strings_TrimSpace v) /\
      (Basename data' = Basename data \/
       exists v, In (FieldStmt "BASENAME" v) FieldStmts /\
                 Basename data' = strings_TrimSpace v) /\
      (forall tag, In tag (Tags data') ->
         In tag (Tags data) \/
         exists v, In (FieldStmt "CATEGORY" v) FieldStmts /\
                   tag = strings_TrimSpace v)).
Proof.
  split.
  - intros Value rest data. cbv zeta. repeat split; reflexivity.
  - intros FieldStmts data. apply parseFieldSection_provenance.
Qed.

(** *** Tags *)

Lemma parseFieldSection_tags (FieldStmts : list Stmt) :
  forall data data' : Data,
    forallb isFieldStmt FieldStmts = true ->
    parseFieldSection location FieldStmts data = (data', None) ->
    Tags data' =
    (Tags data ++ map strings_TrimSpace (categoryValues FieldStmts))%list.
Proof.
  induction FieldStmts as [|x rest IH]; intros data data' Hf H.
  - simpl in H. injection H as <-. simpl. now rewrite app_nil_r.
  - simpl in Hf. apply andb_true_iff in Hf as [Hx Hrest].
    destruct x as [| | |Key Value]; try discriminate Hx.
    simpl in H. simpl categoryValues.
    destruct (String.eqb_spec Key "TITLE") as [->|_].
    { simpl. rewrite (IH _ _ Hrest H). reflexivity. }
    destruct (String.eqb_spec Key "STATUS") as [->|_].
    { simpl.
      destruct (strings_ToLower (strings_TrimSpace Value) =? "draft").
      { rewrite (IH _ _ Hrest H). reflexivity. }
      destruct (strings_ToLower (strings_TrimSpace Value) =? "publish").
      { rewrite (IH _ _ Hrest H). reflexivity. }
      discriminate H. }
    destruct (String.eqb_spec Key "DATE") as [->|_].
    { simpl.
      destruct (time_ParseInLocation "01/02/2006 15:04:05"
                  (strings_TrimSpace Value) location).
      - rewrite (IH _ _ Hrest H). reflexivity.
      - discriminate H. }
    destruct (String.eqb_spec Key "BASENAME") as [->|_].
    { simpl. rewrite (IH _ _ Hrest H). reflexivity. }
    destruct (String.eqb_spec Key "CATEGORY") as [->|_].
    { rewrite (IH _ _ Hrest H). simpl. rewrite <- app_assoc. reflexivity. }
    rewrite (IH _ _ Hrest H). reflexivity.
Qed.

Lemma parseSections_tags (SectionStmts : list Stmt) :
  forall (data data' : Data) (logs : list string),
    forallb isParsedSection SectionStmts = true ->
    parseSections location SectionStmts data = (logs, Ok data') ->
    Tags data' =
    (Tags data ++ map strings_TrimSpace (entryCategoryValues SectionStmts))%list.
Proof.
  induction SectionStmts as [|x rest IH]; intros data data' logs Hf H.
  - simpl in H. injection H as _ <-. simpl. now rewrite app_nil_r.
  - simpl in Hf. apply andb_true_iff in Hf as [Hx Hrest].
    destruct x as [|FieldStmts|Key Body|]; try discriminate Hx.
    + simpl in H, Hx. simpl entryCategoryValues.
      destruct (parseFieldSection location FieldStmts data) as [d1 [err|]] eqn:E;
        [discriminate H|].
      rewrite (IH _ _ _ Hrest H), (parseFieldSection_tags _ _ _ Hx E).
      rewrite map_app, app_assoc. reflexivity.
    + simpl in H. simpl entryCategoryValues.
      destruct (Key =? "BODY"); [exact (IH _ _ _ Hrest H)|].
      destruct (Key =? "COMMENT").
      { destruct (parseSections location rest data) as [l r] eqn:E.
        unfold after_Println in H. simpl in H. injection H as _ ->.
        exact (IH _ _ _ Hrest E). }
      destruct (Key =? "EXCERPT").
      { destruct (parseSections location rest data) as [l r] eqn:E.
        unfold after_Println in H. simpl in H. injection H as _ ->.
        exact (IH _ _ _ Hrest E). }
      discriminate H.
Qed.

(** C5: every CATEGORY field the consumer reads appends its trimmed value at
    the end of the tag list, whatever the list holds.  So a section of field
    statements read to its end appends the trimmed values of all its CATEGORY
    fields, in their order and one tag for each, and an entry of parsed
    sections that converts has as tags the trimmed values of all its CATEGORY
    fields, in order. *)
Theorem category_values_appended_in_order :
  (forall (Value : string) (rest : list Stmt) (data : Data),
      parseFieldSection location (FieldStmt "CATEGORY" Value :: rest) data =
      parseFieldSection location rest
        (set_Tags (Tags data ++ [strings_TrimSpace Value])%list data)) /\
  (forall (FieldStmts : list Stmt) (data data' : Data),
      forallb isFieldStmt FieldStmts = true ->
      parseFieldSection location FieldStmts data = (data', None) ->
      Tags data' =
        (Tags data ++ map strings_TrimSpace (categoryValues FieldStmts))%list /\
      length (Tags data') =
        length (Tags data) + length (categoryValues FieldStmts)) /\
  (forall (SectionStmts : list Stmt) (logs : list string) (data : Data),
      forallb isParsedSection SectionStmts = true ->
      parseStmt location (EntryStmt SectionStmts) = (logs, Ok data) ->
      Tags data = map strings_TrimSpace (entryCategoryValues SectionStmts)).
Proof.
  split; [reflexivity|]. split.
  - intros FieldStmts data data' Hf H.
    pose proof (parseFieldSection_tags _ _ _ Hf H) as E. split; [exact E|].
    rewrite E, length_app, length_map. reflexivity.
  - intros SectionStmts logs data Hf H. unfold parseStmt in H.
    rewrite (parseSections_tags _ _ _ _ Hf H). reflexivity.
Qed.

(** *** Sections of an entry *)

Lemma parseSections_app (pre post : list Stmt) :
  forall data : Data,
    parseSections location (pre ++ post) data =
    match parseSections location pre data with
    | (logs, Ok data') =>
        ((logs ++ fst (parseSections location post data'))%list,
         snd (parseSections location post data'))
    | (logs, r) => (logs, r)
    end.
Proof.
  induction pre as [|x pre IH]; intros data.
  - simpl. now destruct (parseSections location post data).
  - destruct x as [|FieldStmts|Key Body|]; try reflexivity.
    + simpl. destruct (parseFieldSection location FieldStmts data) as [d1 [err|]];
        [reflexivity|apply IH].
    + simpl.
      destruct (Key =? "BODY"); [apply IH|].
      destruct (Key =? "COMMENT").
      { rewrite IH. unfold after_Println.
        now destruct (parseSections location pre data) as [l [d1|e|p]]. }
      destruct (Key =? "EXCERPT").
      { rewrite IH. unfold after_Println.
        now destruct (parseSections location pre data) as [l [d1|e|p]]. }
      reflexivity.
Qed.

Lemma parseSections_ignored_key (Key Body : string) (post : list Stmt)
      (data : Data) :
  Key = "COMMENT" \/ Key = "EXCERPT" ->
  parseSections location (MultilineSectionStmt Key Body :: post) data =
  after_Println (Key ++ " is ignored") (parseSections location post data).
Proof.
  intros [-> | ->]; reflexivity.
Qed.

Lemma parseSections_unsupported_key (Key Body : string) (post : list Stmt)
      (data : Data) :
  ~ In Key ["BODY"; "COMMENT"; "EXCERPT"] ->
  parseSections location (MultilineSectionStmt Key Body :: post) data =
  ([], Err ("not supported multiline section key: " ++ Key)).
Proof.
  intros H. simpl.
  destruct (String.eqb_spec Key "BODY") as [E|_];
    [exfalso; apply H; rewrite E; simpl; tauto|].
  destruct (String.eqb_spec Key "COMMENT") as [E|_];
    [exfalso; apply H; rewrite E; simpl; tauto|].
  destruct (String.eqb_spec Key "EXCERPT") as [E|_];
    [exfalso; apply H; rewrite E; simpl; tauto|].
  reflexivity.
Qed.

(** C1, as the code has it: a multi-line section with key COMMENT or EXCERPT
    is ignored, the entry converts to the same [Data] or fails with the same
    error as without that section, and one line is logged when the section is
    reached; a multi-line section with a key other than BODY, COMMENT and
    EXCERPT makes the conversion fail when it is reached. *)
Theorem comment_excerpt_ignored_other_keys_rejected
        (pre post : list Stmt) (Key Body : string) :
  (Key = "COMMENT" \/ Key = "EXCERPT" ->
   snd (parseStmt location
          (EntryStmt (pre ++ MultilineSectionStmt Key Body :: post))) =
     snd (parseStmt location (EntryStmt (pre ++ post))) /\
   forall (logs : list string) (data : Data),
     parseStmt location (EntryStmt pre) = (logs, Ok data) ->
     fst (parseStmt location
            (EntryStmt (pre ++ MultilineSectionStmt Key Body :: post))) =
       (logs ++ (Key ++ " is ignored")%string ::
          fst (parseSections location post data))%list) /\
  (~ In Key ["BODY"; "COMMENT"; "EXCERPT"] ->
   forall (logs : list string) (data : Data),
     parseStmt location (EntryStmt pre) = (logs, Ok data) ->
     parseStmt location
       (EntryStmt (pre ++ MultilineSectionStmt Key Body :: post)) =
       (logs, Err ("not supported multiline section key: " ++ Key))).
Proof.
  unfold parseStmt. split.
  - intros HK. split.
    + rewrite !parseSections_app.
      destruct (parseSections location pre Data_zero) as [l [d1|e|p]];
        try reflexivity.
      rewrite parseSections_ignored_key by exact HK. reflexivity.
    + intros logs data H. rewrite parseSections_app, H.
      rewrite parseSections_ignored_key by exact HK. reflexivity.
  - intros HK logs data H. rewrite parseSections_app, H.
    rewrite parseSections_unsupported_key by exact HK.
    simpl. now rewrite app_nil_r.
Qed.

(** *** The renderer and the loop *)

Lemma genOutput_semantic_error (stmt : Stmt) (out : string) (w : World)
      (logs : list string) (err : error) :
  parseStmt location stmt = (logs, Err err) ->
  genOutput location stmt out w = (Err err, (w ++ log_lines logs)%list).
Proof.
  intros H. unfold genOutput, bind, run_logged. rewrite H. reflexivity.
Qed.

Lemma _main_loop_error_logged (stmt : Stmt) (rest : list Stmt) (out : string)
      (w w' : World) (err : error) :
  genOutput location stmt out w = (Err err, w') ->
  _main_loop location (stmt :: rest) out w =
  _main_loop location rest out (w' ++ [Println ("got error: " ++ err)])%list.
Proof.
  intros H. simpl. rewrite H. reflexivity.
Qed.

Lemma _main_loop_app (pre post : list Stmt) (out : string) :
  forall w : World,
    _main_loop location (pre ++ post) out w =
    match _main_loop location pre out w with
    | (Ok _, w') => _main_loop location post out w'
    | (Err err, w') => (Err err, w')
    | (Panic p, w') => (Panic p, w')
    end.
Proof.
  induction pre as [|stmt pre IH]; intros w; [reflexivity|].
  simpl. destruct (genOutput location stmt out w) as [[u|err|p] w1].
  - apply IH.
  - unfold bind, log_Println, emit. apply IH.
  - reflexivity.
Qed.

Lemma parseSections_no_panic (SectionStmts : list Stmt) :
  forall data : Data,
    forallb isSectionStmt SectionStmts = true ->
    isPanic (snd (parseSections location SectionStmts data)) = false.
Proof.
  induction SectionStmts as [|x rest IH]; intros data Hf; [reflexivity|].
  simpl in Hf. apply andb_true_iff in Hf as [Hx Hrest].
  destruct x as [|FieldStmts|Key Body|]; try discriminate Hx.
  - simpl. destruct (parseFieldSection location FieldStmts data) as [d1 [err|]];
      [reflexivity|apply IH, Hrest].
  - simpl. field_cases; try reflexivity;
      try rewrite after_Println_snd; apply IH, Hrest.
Qed.

Lemma genOutput_no_panic (stmt : Stmt) (out : string) (w : World) :
  isParsedEntry stmt = true ->
  isPanic (fst (genOutput location stmt out w)) = false.
Proof.
  intros Hs. destruct stmt as [SectionStmts| | |]; try discriminate Hs.
  simpl in Hs. pose proof (parseSections_no_panic _ Data_zero Hs) as Hp.
  unfold genOutput, bind, run_logged, parseStmt.
  destruct (parseSections location SectionStmts Data_zero) as [logs [data|err|p]];
    simpl in Hp; [|reflexivity|discriminate Hp].
  simpl snd. simpl fst. unfold call at 1.
  destruct (os_MkdirAll _ _); [reflexivity|].
  unfold call at 1. destruct (os_Create _ _); [reflexivity|].
  unfold defer_Close, call. destruct (template_Execute _ _ _); reflexivity.
Qed.

Lemma _main_loop_ok (stmts : list Stmt) (out : string) :
  forall w : World,
    forallb isParsedEntry stmts = true ->
    fst (_main_loop location stmts out w) = Ok tt.
Proof.
  induction stmts as [|stmt rest IH]; intros w Hf; [reflexivity|].
  simpl in Hf. apply andb_true_iff in Hf as [Hs Hrest].
  pose proof (genOutput_no_panic stmt out w Hs) as Hp.
  simpl. destruct (genOutput location stmt out w) as [[u|err|p] w1];
    simpl in Hp; [| |discriminate Hp].
  - apply IH, Hrest.
  - unfold bind, log_Println, emit. apply IH, Hrest.
Qed.

Lemma _main_parsed (flags : Flags) (w : World) (stmts : list Stmt) :
  time_LoadLocation (timezone flags) = inl location ->
  os_Open w (input flags) = None ->
  parser_Parse (w ++ [Open (input flags) None])%list (input flags) ["IMAGE"] =
    inl stmts ->
  _main flags w =
  defer_Close (input flags) (_main_loop location stmts (outputDir flags))
              (w ++ [Open (input flags) None])%list.
Proof.
  intros Hl Ho Hp. unfold _main. rewrite Hl. unfold bind, call. rewrite Ho.
  unfold defer_Close. rewrite Hp. reflexivity.
Qed.

Lemma _main_loop_semantic_error (stmt : Stmt) (others : list Stmt)
      (out : string) (w : World) (logs : list string) (err : error) :
  parseStmt location stmt = (logs, Err err) ->
  _main_loop location (stmt :: others) out w =
  _main_loop location others out
    (w ++ log_lines logs ++ [Println ("got error: " ++ err)])%list.
Proof.
  intros H.
  rewrite (_main_loop_error_logged stmt others out w _ err
             (genOutput_semantic_error stmt out w logs err H)).
  rewrite <- app_assoc. reflexivity.
Qed.

(** An error at a field fails the entry, whatever sections and fields were
    read without error before it. *)
Lemma parseStmt_field_error (presections prefields : list Stmt) (x : Stmt)
      (rest post : list Stmt) (logs : list string) (d0 d1 d2 : Data)
      (err : error) :
  parseStmt location (EntryStmt presections) = (logs, Ok d0) ->
  forallb isFieldStmt prefields = true ->
  parseFieldSection location prefields d0 = (d1, None) ->
  parseFieldSection location (x :: rest) d1 = (d2, Some err) ->
  parseStmt location
    (EntryStmt (presections ++
                NormalSectionStmt (prefields ++ x :: rest) :: post)) =
  (logs, Err err).
Proof.
  unfold parseStmt. intros H0 Hf H1 H2.
  rewrite parseSections_app, H0. cbn [parseSections].
  rewrite (parseFieldSection_app location prefields (x :: rest) d0 Hf), H1, H2.
  simpl. now rewrite app_nil_r.
Qed.

(** C2: in a batch of parsed entries, an entry whose conversion fails makes
    [genOutput] return that error with nothing but the log lines of the
    conversion written, so no directory or file call is made for it; the loop
    logs the error and goes on with the entries that follow, from the world
    the failed entry left; the loop ends without error and [_main] returns
    nil. *)
Theorem failed_entry_logged_skipped_run_continues
        (pre post : list Stmt) (stmt : Stmt) (out : string) (w : World)
        (logs : list string) (err : error) :
  forallb isParsedEntry (pre ++ stmt :: post) = true ->
  parseStmt location stmt = (logs, Err err) ->
  let w1 := snd (_main_loop location pre out w) in
  genOutput location stmt out w1 = (Err err, (w1 ++ log_lines logs)%list) /\
  _main_loop location (pre ++ stmt :: post) out w =
    _main_loop location post out
      (w1 ++ log_lines logs ++ [Println ("got error: " ++ err)])%list /\
  fst (_main_loop location (pre ++ stmt :: post) out w) = Ok tt /\
  (forall (flags : Flags) (w0 : World),
      time_LoadLocation (timezone flags) = inl location ->
      os_Open w0 (input flags) = None ->
      parser_Parse (w0 ++ [Open (input flags) None])%list (input flags)
                   ["IMAGE"] = inl (pre ++ stmt :: post)%list ->
      fst (_main flags w0) = Ok tt).
Proof.
  intros Hf H w1.
  pose proof (genOutput_semantic_error stmt out w1 logs err H) as Hg.
  split; [exact Hg|]. split; [|split].
  - rewrite _main_loop_app.
    assert (Hpre : forallb isParsedEntry pre = true).
    { rewrite forallb_app in Hf. now apply andb_true_iff in Hf as [Hpre _]. }
    pose proof (_main_loop_ok pre out w Hpre) as Hok. subst w1.
    destruct (_main_loop location pre out w) as [r w'].
    simpl in Hok, Hg. subst r. cbv beta iota.
    rewrite (_main_loop_error_logged stmt post out w' _ err Hg).
    rewrite <- app_assoc. reflexivity.
  - apply _main_loop_ok, Hf.
  - intros flags w0 Hl Ho Hp.
    rewrite (_main_parsed flags w0 _ Hl Ho Hp). unfold defer_Close.
    pose proof (_main_loop_ok (pre ++ stmt :: post) (outputDir flags)
                  (w0 ++ [Open (input flags) None])%list Hf) as Hok.
    destruct (_main_loop location (pre ++ stmt :: post) (outputDir flags)
                (w0 ++ [Open (input flags) None])%list) as [r w'].
    exact Hok.
Qed.

(** C3, as the code has it: the status is the trimmed value in lower case.
    When that is draft the flag is set and when it is publish the flag is
    cleared, in particular for the trimmed values draft and publish
    themselves; any other status is an error of the section, which makes the
    conversion of the entry fail whatever was read without error before the
    field, and the loop logs the error and goes on with the next entry. *)
Theorem status_read_in_lower_case
        (HL : GoLibLaws L) (Value : string) (rest : list Stmt) (data : Data) :
  let value := strings_TrimSpace Value in
  let status := strings_ToLower value in
  (status = "draft" ->
   parseFieldSection location (FieldStmt "STATUS" Value :: rest) data =
     parseFieldSection location rest (set_Draft true data)) /\
  (status = "publish" ->
   parseFieldSection location (FieldStmt "STATUS" Value :: rest) data =
     parseFieldSection location rest (set_Draft false data)) /\
  (value = "draft" ->
   parseFieldSection location (FieldStmt "STATUS" Value :: rest) data =
     parseFieldSection location rest (set_Draft true data)) /\
  (value = "publish" ->
   parseFieldSection location (FieldStmt "STATUS" Value :: rest) data =
     parseFieldSection location rest (set_Draft false data)) /\
  (status <> "draft" -> status <> "publish" ->
   parseFieldSection location (FieldStmt "STATUS" Value :: rest) data =
     (data, Some ("not supported status: " ++ value)) /\
   forall (presections prefields post others : list Stmt)
          (logs : list string) (d0 : Data) (out : string) (w : World),
     parseStmt location (EntryStmt presections) = (logs, Ok d0) ->
     forallb isFieldStmt prefields = true ->
     parseFieldSection location prefields d0 = (data, None) ->
     let entry :=
       EntryStmt (presections ++
                  NormalSectionStmt
                    (prefields ++ FieldStmt "STATUS" Value :: rest) :: post) in
     parseStmt location entry =
       (logs, Err ("not supported status: " ++ value)) /\
     _main_loop location (entry :: others) out w =
       _main_loop location others out
         (w ++ log_lines logs ++
          [Println ("got error: not supported status: " ++ value)])%list).
Proof.
  intros value status.
  assert (Hd : status = "draft" ->
    parseFieldSection location (FieldStmt "STATUS" Value :: rest) data =
    parseFieldSection location rest (set_Draft true data)).
  { intros E. simpl. fold value. fold status. rewrite E. reflexivity. }
  assert (Hp : status = "publish" ->
    parseFieldSection location (FieldStmt "STATUS" Value :: rest) data =
    parseFieldSection location rest (set_Draft false data)).
  { intros E. simpl. fold value. fold status. rewrite E. reflexivity. }
  split; [exact Hd|]. split; [exact Hp|]. split; [|split].
  - intros E. apply Hd. unfold status. rewrite E.
    rewrite strings_ToLower_ascii by reflexivity. reflexivity.
  - intros E. apply Hp. unfold status. rewrite E.
    rewrite strings_ToLower_ascii by reflexivity. reflexivity.
  - intros N1 N2.
    assert (Hbad :
      parseFieldSection location (FieldStmt "STATUS" Value :: rest) data =
      (data, Some ("not supported status: " ++ value))).
    { simpl. fold value. fold status.
      apply String.eqb_neq in N1, N2. rewrite N1, N2. reflexivity. }
    split; [exact Hbad|].
    intros presections prefields post others logs d0 out w H0 Hf H1 entry.
    pose proof (parseStmt_field_error presections prefields _ rest post
                  logs d0 data data _ H0 Hf H1 Hbad) as Hs.
    split; [exact Hs|].
    exact (_main_loop_semantic_error entry others out w logs _ Hs).
Qed.

(** C4: the run loads the location named by the time zone flag and converts
    every parsed entry in that location.  A DATE field is read by parsing its
    trimmed value with the layout 01/02/2006 15:04:05 in that location: the
    parsed time becomes the date of the entry, and a value that does not parse
    is an error of the section, which makes the conversion of the entry fail
    whatever was read without error before the field, and the loop logs the
    error and goes on with the next entry. *)
Theorem date_parsed_with_layout_in_run_location
        (flags : Flags) (Value : string) (rest : list Stmt) (data : Data) :
  time_LoadLocation (timezone flags) = inl location ->
  let value := strings_TrimSpace Value in
  (forall (stmts : list Stmt) (w : World),
      os_Open w (input flags) = None ->
      parser_Parse (w ++ [Open (input flags) None])%list (input flags)
                   ["IMAGE"] = inl stmts ->
      _main flags w =
      defer_Close (input flags) (_main_loop location stmts (outputDir flags))
                  (w ++ [Open (input flags) None])%list) /\
  (forall t : time_Time,
      time_ParseInLocation "01/02/2006 15:04:05" value location = inl t ->
      parseFieldSection location (FieldStmt "DATE" Value :: rest) data =
        parseFieldSection location rest (set_Date t data)) /\
  (forall err : error,
      time_ParseInLocation "01/02/2006 15:04:05" value location = inr err ->
      parseFieldSection location (FieldStmt "DATE" Value :: rest) data =
        (data, Some err) /\
      forall (presections prefields post others : list Stmt)
             (logs : list string) (d0 : Data) (out : string) (w : World),
        parseStmt location (EntryStmt presections) = (logs, Ok d0) ->
        forallb isFieldStmt prefields = true ->
        parseFieldSection location prefields d0 = (data, None) ->
        let entry :=
          EntryStmt (presections ++
                     NormalSectionStmt
                       (prefields ++ FieldStmt "DATE" Value :: rest) :: post) in
        parseStmt location entry = (logs, Err err) /\
        _main_loop location (entry :: others) out w =
          _main_loop location others out
            (w ++ log_lines logs ++ [Println ("got error: " ++ err)])%list).
Proof.
  intros Hl value. split; [|split].
  - intros stmts w Ho Hp. apply _main_parsed; assumption.
  - intros t E. simpl. fold value. rewrite E. reflexivity.
  - intros err E.
    assert (Hbad :
      parseFieldSection location (FieldStmt "DATE" Value :: rest) data =
      (data, Some err)).
    { simpl. fold value. rewrite E. reflexivity. }
    split; [exact Hbad|].
    intros presections prefields post others logs d0 out w H0 Hf H1 entry.
    pose proof (parseStmt_field_error presections prefields _ rest post
                  logs d0 data data _ H0 Hf H1 Hbad) as Hs.
    split; [exact Hs|].
    exact (_main_loop_semantic_error entry others out w logs _ Hs).
Qed.

(** C6: when the parser returns an error for the opened input, [_main]
    returns that error; the only calls made are the opening and the closing
    of the input, so no entry is converted and no directory or file call is
    made. *)
Theorem structural_error_aborts_run
        (flags : Flags) (w : World) (err : error) :
  time_LoadLocation (timezone flags) = inl location ->
  os_Open w (input flags) = None ->
  parser_Parse (w ++ [Open (input flags) None])%list (input flags) ["IMAGE"] =
    inr err ->
  _main flags w =
    (Err err, (w ++ [Open (input flags) None; Close (input flags)])%list) /\
  filter isFileEvent (snd (_main flags w)) = filter isFileEvent w.
Proof.
  intros Hl Ho Hp.
  assert (E : _main flags w =
    (Err err, (w ++ [Open (input flags) None; Close (input flags)])%list)).
  { unfold _main. rewrite Hl. unfold bind, call. rewrite Ho.
    unfold defer_Close. rewrite Hp. rewrite <- app_assoc. reflexivity. }
  split; [exact E|]. rewrite E. simpl snd.
  rewrite filter_app. simpl. apply app_nil_r.
Qed.

End ConsumerTheorems.

(** ** The program on concrete input *)

Lemma TestLib_laws : GoLibLaws TestLib.
Proof. constructor. intros s _. reflexivity. Qed.

(** At an entry with an IMAGE section, the key the run registers with the
    parser, the conversion fails: C1 as stated does not hold there. *)
Lemma image_section_fails_conversion :
  "IMAGE" <> "BODY" /\
  @parseStmt TestLib Tokyo
    (EntryStmt [NormalSectionStmt [FieldStmt "TITLE" " Pic"];
                MultilineSectionStmt "IMAGE" "pic.png"]) =
  ([], Err "not supported multiline section key: IMAGE").
Proof.
  split; [discriminate|reflexivity].
Qed.

Lemma comment_ignored_image_rejected_witness :
  (("COMMENT" = "COMMENT" \/ "COMMENT" = "EXCERPT") /\
   snd (@parseStmt TestLib Tokyo
          (EntryStmt ([NormalSectionStmt [FieldStmt "TITLE" " Pic"]] ++
                      MultilineSectionStmt "COMMENT" "nice" ::
                      [MultilineSectionStmt "BODY" "text"]))) =
   snd (@parseStmt TestLib Tokyo
          (EntryStmt ([NormalSectionStmt [FieldStmt "TITLE" " Pic"]] ++
                      [MultilineSectionStmt "BODY" "text"])))) /\
  (~ In "IMAGE" ["BODY"; "COMMENT"; "EXCERPT"] /\
   @parseStmt TestLib Tokyo
     (EntryStmt [NormalSectionStmt [FieldStmt "TITLE" " Pic"]]) =
     ([], Ok (set_Title "Pic" Data_zero)) /\
   @parseStmt TestLib Tokyo
     (EntryStmt ([NormalSectionStmt [FieldStmt "TITLE" " Pic"]] ++
                 MultilineSectionStmt "IMAGE" "pic.png" :: [])) =
     ([], Err ("not supported multiline section key: " ++ "IMAGE"))).
Proof.
  assert (H1 : "COMMENT" = "COMMENT" \/ "COMMENT" = "EXCERPT")
    by (left; reflexivity).
  assert (H2 : ~ In "IMAGE" ["BODY"; "COMMENT"; "EXCERPT"])
    by (simpl; intros [H|[H|[H|[]]]]; discriminate H).
  assert (H3 : @parseStmt TestLib Tokyo
                 (EntryStmt [NormalSectionStmt [FieldStmt "TITLE" " Pic"]]) =
               ([], Ok (set_Title "Pic" Data_zero))) by reflexivity.
  split.
  - split; [exact H1|].
    exact (proj1 (proj1 (@comment_excerpt_ignored_other_keys_rejected TestLib
             Tokyo [NormalSectionStmt [FieldStmt "TITLE" " Pic"]]
             [MultilineSectionStmt "BODY" "text"] "COMMENT" "nice") H1)).
  - split; [exact H2|]. split; [exact H3|].
    exact (proj2 (@comment_excerpt_ignored_other_keys_rejected TestLib
             Tokyo [NormalSectionStmt [FieldStmt "TITLE" " Pic"]]
             [] "IMAGE" "pic.png") H2 _ _ H3).
Defined.

Lemma failed_entry_witness :
  forallb isParsedEntry ([] ++ badStatusEntry :: [helloEntry]) = true /\
  @parseStmt TestLib Tokyo badStatusEntry =
    ([], Err "not supported status: Future") /\
  @genOutput TestLib (TestSys sampleFiles) Tokyo badStatusEntry "content" [] =
    (Err "not supported status: Future", []) /\
  @_main_loop TestLib (TestSys sampleFiles) Tokyo
    ([] ++ badStatusEntry :: [helloEntry]) "content" [] =
  @_main_loop TestLib (TestSys sampleFiles) Tokyo [helloEntry] "content"
    [Println "got error: not supported status: Future"] /\
  fst (@_main_loop TestLib (TestSys sampleFiles) Tokyo
         ([] ++ badStatusEntry :: [helloEntry]) "content" []) = Ok tt /\
  fst (@_main TestLib (TestSys sampleFiles)
         (mkFlags "export.txt" "content" "Asia/Tokyo") []) = Ok tt.
Proof.
  assert (H1 : forallb isParsedEntry ([] ++ badStatusEntry :: [helloEntry]) = true)
    by reflexivity.
  assert (H2 : @parseStmt TestLib Tokyo badStatusEntry =
               ([], Err "not supported status: Future")) by reflexivity.
  destruct (@failed_entry_logged_skipped_run_continues TestLib
              (TestSys sampleFiles) Tokyo [] [helloEntry] badStatusEntry
              "content" [] [] "not supported status: Future" H1 H2)
    as (A & B & C & D).
  split; [exact H1|]. split; [exact H2|]. split; [exact A|].
  split; [exact B|]. split; [exact C|].
  apply (D (mkFlags "export.txt" "content" "Asia/Tokyo") []); reflexivity.
Defined.

(** At the status Publish, which is neither draft nor publish once trimmed,
    the conversion succeeds with the flag cleared: C3 as stated does not hold
    there. *)
Lemma capitalised_publish_is_accepted :
  @strings_TrimSpace TestLib " Publish" <> "draft" /\
  @strings_TrimSpace TestLib " Publish" <> "publish" /\
  @parseStmt TestLib Tokyo
    (EntryStmt [NormalSectionStmt [FieldStmt "STATUS" " Publish"]]) =
  ([], Ok (set_Draft false Data_zero)).
Proof.
  split; [discriminate|]. split; [discriminate|reflexivity].
Qed.

Lemma status_witness :
  (@strings_ToLower TestLib (@strings_TrimSpace TestLib " Draft") = "draft" /\
   @parseFieldSection TestLib Tokyo [FieldStmt "STATUS" " Draft"] Data_zero =
     (set_Draft true Data_zero, None)) /\
  (@strings_ToLower TestLib (@strings_TrimSpace TestLib " Publish") = "publish" /\
   @parseFieldSection TestLib Tokyo [FieldStmt "STATUS" " Publish"]
     (set_Draft true Data_zero) = (set_Draft false Data_zero, None)) /\
  (@strings_TrimSpace TestLib " draft " = "draft" /\
   @parseFieldSection TestLib Tokyo [FieldStmt "STATUS" " draft "] Data_zero =
     (set_Draft true Data_zero, None)) /\
  (@strings_TrimSpace TestLib "publish" = "publish" /\
   @parseFieldSection TestLib Tokyo [FieldStmt "STATUS" "publish"] Data_zero =
     (set_Draft false Data_zero, None)) /\
  (@strings_ToLower TestLib (@strings_TrimSpace TestLib " Future") <> "draft" /\
   @strings_ToLower TestLib (@strings_TrimSpace TestLib " Future") <> "publish" /\
   @parseStmt TestLib Tokyo
     (EntryStmt [MultilineSectionStmt "COMMENT" "nice"]) =
     (["COMMENT is ignored"], Ok Data_zero) /\
   forallb isFieldStmt [FieldStmt "TITLE" " Bad"] = true /\
   @parseFieldSection TestLib Tokyo [FieldStmt "TITLE" " Bad"] Data_zero =
     (set_Title "Bad" Data_zero, None) /\
   @parseStmt TestLib Tokyo
     (EntryStmt
        ([MultilineSectionStmt "COMMENT" "nice"] ++
         NormalSectionStmt
           ([FieldStmt "TITLE" " Bad"] ++
            FieldStmt "STATUS" " Future" :: [FieldStmt "CATEGORY" " go"]) ::
         [MultilineSectionStmt "BODY" "text"])) =
     (["COMMENT is ignored"], Err "not supported status: Future") /\
   @_main_loop TestLib (TestSys sampleFiles) Tokyo
     [EntryStmt
        ([MultilineSectionStmt "COMMENT" "nice"] ++
         NormalSectionStmt
           ([FieldStmt "TITLE" " Bad"] ++
            FieldStmt "STATUS" " Future" :: [FieldStmt "CATEGORY" " go"]) ::
         [MultilineSectionStmt "BODY" "text"])]
     "content" [] =
     (Ok tt, [Println "COMMENT is ignored";
              Println "got error: not supported status: Future"])).
Proof.
  pose (thm := fun Value rest data =>
    @status_read_in_lower_case TestLib (TestSys sampleFiles) Tokyo
      TestLib_laws Value rest data).
  split; [|split; [|split; [|split]]].
  - split; [reflexivity|].
    exact (proj1 (thm " Draft" [] Data_zero) eq_refl).
  - split; [reflexivity|].
    exact (proj1 (proj2 (thm " Publish" [] (set_Draft true Data_zero))) eq_refl).
  - split; [reflexivity|].
    exact (proj1 (proj2 (proj2 (thm " draft " [] Data_zero))) eq_refl).
  - split; [reflexivity|].
    exact (proj1 (proj2 (proj2 (proj2 (thm "publish" [] Data_zero)))) eq_refl).
  - assert (N1 : @strings_ToLower TestLib (@strings_TrimSpace TestLib " Future")
                 <> "draft") by discriminate.
    assert (N2 : @strings_ToLower TestLib (@strings_TrimSpace TestLib " Future")
                 <> "publish") by discriminate.
    split; [exact N1|]. split; [exact N2|].
    split; [reflexivity|]. split; [reflexivity|]. split; [reflexivity|].
    exact (proj2 (proj2 (proj2 (proj2 (proj2
             (thm " Future" [FieldStmt "CATEGORY" " go"]
                  (set_Title "Bad" Data_zero))))) N1 N2)
             [MultilineSectionStmt "COMMENT" "nice"]
             [FieldStmt "TITLE" " Bad"]
             [MultilineSectionStmt "BODY" "text"] []
             ["COMMENT is ignored"] Data_zero "content" []
             eq_refl eq_refl eq_refl).
Defined.

Lemma date_witness :
  @time_LoadLocation TestLib (timezone default_Flags) = inl Tokyo /\
  (@time_ParseInLocation TestLib "01/02/2006 15:04:05"
     (@strings_TrimSpace TestLib " 01/02/2016 15:04:05") Tokyo =
     inl "01/02/2016 15:04:05 Asia/Tokyo" /\
   @parseFieldSection TestLib Tokyo
     [FieldStmt "DATE" " 01/02/2016 15:04:05"] Data_zero =
     (set_Date ("01/02/2016 15:04:05 Asia/Tokyo" : @time_Time TestLib)
               Data_zero, None)) /\
  (exists err : error,
      @time_ParseInLocation TestLib "01/02/2006 15:04:05"
        (@strings_TrimSpace TestLib " yesterday") Tokyo = inr err /\
      @parseStmt TestLib Tokyo (EntryStmt []) = ([], Ok Data_zero) /\
      forallb isFieldStmt [FieldStmt "TITLE" " Bad"] = true /\
      @parseFieldSection TestLib Tokyo [FieldStmt "TITLE" " Bad"] Data_zero =
        (set_Title "Bad" Data_zero, None) /\
      @parseStmt TestLib Tokyo
        (EntryStmt
           ([] ++ NormalSectionStmt
                    ([FieldStmt "TITLE" " Bad"] ++
                     FieldStmt "DATE" " yesterday" :: []) :: [])) =
        ([], Err err) /\
      @_main_loop TestLib (TestSys sampleFiles) Tokyo
        [EntryStmt
           ([] ++ NormalSectionStmt
                    ([FieldStmt "TITLE" " Bad"] ++
                     FieldStmt "DATE" " yesterday" :: []) :: [])]
        "content" [] = (Ok tt, [Println ("got error: " ++ err)])).
Proof.
  assert (Hl : @time_LoadLocation TestLib (timezone default_Flags) = inl Tokyo)
    by reflexivity.
  pose (thm := fun Value data =>
    @date_parsed_with_layout_in_run_location TestLib (TestSys sampleFiles)
      Tokyo default_Flags Value [] data Hl).
  split; [exact Hl|]. split.
  - split; [reflexivity|].
    exact (proj1 (proj2 (thm " 01/02/2016 15:04:05" Data_zero)) _ eq_refl).
  - eexists. split; [reflexivity|].
    split; [reflexivity|]. split; [reflexivity|]. split; [reflexivity|].
    exact (proj2 (proj2 (proj2 (thm " yesterday" (set_Title "Bad" Data_zero)))
                    _ eq_refl)
             [] [FieldStmt "TITLE" " Bad"] [] [] [] Data_zero "content" []
             eq_refl eq_refl eq_refl).
Defined.

Lemma category_witness :
  forallb isFieldStmt
    [FieldStmt "CATEGORY" " go"; FieldStmt "TITLE" " Hello ";
     FieldStmt "CATEGORY" " hugo"; FieldStmt "CATEGORY" " go"] = true /\
  @Tags TestLib
    (fst (@parseFieldSection TestLib Tokyo
            [FieldStmt "CATEGORY" " go"; FieldStmt "TITLE" " Hello ";
             FieldStmt "CATEGORY" " hugo"; FieldStmt "CATEGORY" " go"]
            (set_Tags ["old"] Data_zero))) = ["old"; "go"; "hugo"; "go"] /\
  forallb isParsedSection helloSections = true /\
  (exists (logs : list string) (data : @Data TestLib),
      @parseStmt TestLib Tokyo (EntryStmt helloSections) = (logs, Ok data) /\
      Tags data = ["go"; "hugo"; "go"]).
Proof.
  pose (fields := [FieldStmt "CATEGORY" " go"; FieldStmt "TITLE" " Hello ";
                   FieldStmt "CATEGORY" " hugo"; FieldStmt "CATEGORY" " go"]).
  assert (Hf : forallb isFieldStmt fields = true) by reflexivity.
  split; [exact Hf|]. split.
  - exact (proj1 (proj1 (proj2 (@category_values_appended_in_order TestLib Tokyo))
             fields (set_Tags ["old"] Data_zero) _ Hf eq_refl)).
  - split; [reflexivity|].
    eexists. eexists. split; [reflexivity|].
    exact (proj2 (proj2 (@category_values_appended_in_order TestLib Tokyo))
             helloSections _ _ eq_refl eq_refl).
Defined.

Lemma structural_error_witness :
  @time_LoadLocation TestLib "Asia/Tokyo" = inl Tokyo /\
  @parser_Parse (TestSys sampleFiles) [Open "broken.txt" None] "broken.txt"
    ["IMAGE"] = inr "line 3: unterminated multiline section" /\
  @_main TestLib (TestSys sampleFiles)
    (mkFlags "broken.txt" "content" "Asia/Tokyo") [] =
    (Err "line 3: unterminated multiline section",
     [Open "broken.txt" None; Close "broken.txt"]).
Proof.
  split; [reflexivity|]. split; [reflexivity|].
  exact (proj1 (@structural_error_aborts_run TestLib (TestSys sampleFiles)
           Tokyo (mkFlags "broken.txt" "content" "Asia/Tokyo") []
           "line 3: unterminated multiline section" eq_refl eq_refl eq_refl)).
Defined.

Lemma trimmed_tag_witness :
  In "go" (@Tags TestLib
             (fst (@parseFieldSection TestLib Tokyo
                     [FieldStmt "CATEGORY" "  go "] Data_zero))) /\
  (In "go" (@Tags TestLib Data_zero) \/
   exists v : string,
     In (FieldStmt "CATEGORY" v) [FieldStmt "CATEGORY" "  go "] /\
     "go" = @strings_TrimSpace TestLib v).
Proof.
  assert (H : In "go" (@Tags TestLib
                         (fst (@parseFieldSection TestLib Tokyo
                                 [FieldStmt "CATEGORY" "  go "] Data_zero))))
    by (left; reflexivity).
  split; [exact H|].
  exact (proj2 (proj2 (proj2 (@stored_values_are_trimmed TestLib Tokyo)
           [FieldStmt "CATEGORY" "  go "] Data_zero)) "go" H).
Defined.

Lemma unknown_key_witness :
  ~ In "AUTHOR" consumedKeys /\
  @parseFieldSection TestLib Tokyo
    (FieldStmt "AUTHOR" " someone" :: [FieldStmt "TITLE" " Hello "])
    Data_zero =
  @parseFieldSection TestLib Tokyo [FieldStmt "TITLE" " Hello "] Data_zero /\
  @parseFieldSection TestLib Tokyo [FieldStmt "AUTHOR" " someone"] Data_zero =
    (Data_zero, None).
Proof.
  assert (H : ~ In "AUTHOR" consumedKeys)
    by (simpl; intros [H|[H|[H|[H|[H|[]]]]]]; discriminate H).
  split; [exact H|].
  exact (@unknown_key_accepted_data_unchanged TestLib Tokyo "AUTHOR" " someone"
           [FieldStmt "TITLE" " Hello "] Data_zero H).
Defined.

Lemma non_field_witness :
  isFieldStmt (MultilineSectionStmt "BODY" "text") = false /\
  @parseFieldSection TestLib Tokyo
    (MultilineSectionStmt "BODY" "text" :: [FieldStmt "CATEGORY" " go"])
    Data_zero = (Data_zero, None) /\
  @parseFieldSection TestLib Tokyo
    ([FieldStmt "TITLE" " Hello "] ++
     MultilineSectionStmt "BODY" "text" :: [FieldStmt "CATEGORY" " go"])
    Data_zero = (set_Title "Hello" Data_zero, None).
Proof.
  split; [reflexivity|].
  exact (@non_field_element_ends_section TestLib Tokyo
           [FieldStmt "TITLE" " Hello "] (MultilineSectionStmt "BODY" "text")
           [FieldStmt "CATEGORY" " go"] Data_zero eq_refl).
Defined.

(** * More of the program *)

(** ** The run: its errors, its panics and its files *)

Section RunTheorems.

Context {L : GoLib} {S : GoSys}.

Lemma opened_app (a b : World) :
  opened (a ++ b)%list = opened a + opened b.
Proof.
  induction a as [|e a IH]; [reflexivity|].
  destruct e as [l|n [err|]|n|p [err|]|n [err|]|n t [err|]]; simpl;
    rewrite IH; reflexivity.
Qed.

Lemma closed_app (a b : World) :
  closed (a ++ b)%list = closed a + closed b.
Proof.
  induction a as [|e a IH]; [reflexivity|].
  destruct e; simpl; rewrite IH; reflexivity.
Qed.

Lemma opened_log_lines (lines : list string) : opened (log_lines lines) = 0.
Proof. induction lines as [|l lines IH]; [reflexivity|exact IH]. Qed.

Lemma closed_log_lines (lines : list string) : closed (log_lines lines) = 0.
Proof. induction lines as [|l lines IH]; [reflexivity|exact IH]. Qed.

Lemma genOutput_balanced (location : time_Location) (stmt : Stmt)
      (out : string) (w w' : World) (r : result unit) :
  genOutput location stmt out w = (r, w') ->
  opened w' + closed w = closed w' + opened w.
Proof.
  unfold genOutput, bind, run_logged, call, defer_Close. intros H.
  destruct (parseStmt location stmt) as [logs [data|err|p]]; simpl in H.
  - match type of H with context [os_MkdirAll ?a ?b] =>
      destruct (os_MkdirAll a b) end.
    { injection H as _ <-.
      rewrite !opened_app, !closed_app, opened_log_lines, closed_log_lines.
      simpl. lia. }
    match type of H with context [os_Create ?a ?b] =>
      destruct (os_Create a b) end.
    { injection H as _ <-.
      rewrite !opened_app, !closed_app, opened_log_lines, closed_log_lines.
      simpl. lia. }
    match type of H with context [template_Execute ?a ?b ?c] =>
      destruct (template_Execute a b c) end;
      injection H as _ <-;
      rewrite !opened_app, !closed_app, opened_log_lines, closed_log_lines;
      simpl; lia.
  - injection H as _ <-.
    rewrite opened_app, closed_app, opened_log_lines, closed_log_lines. lia.
  - injection H as _ <-.
    rewrite opened_app, closed_app, opened_log_lines, closed_log_lines. lia.
Qed.

Lemma _main_loop_balanced (location : time_Location) (stmts : list Stmt)
      (out : string) :
  forall w : World,
    opened (snd (_main_loop location stmts out w)) + closed w =
    closed (snd (_main_loop location stmts out w)) + opened w.
Proof.
  induction stmts as [|stmt rest IH]; intros w; [simpl; lia|].
  simpl. destruct (genOutput location stmt out w) as [r w1] eqn:E.
  pose proof (genOutput_balanced location stmt out w w1 r E) as Hg.
  destruct r as [u|err|p].
  - specialize (IH w1). lia.
  - unfold bind, log_Println, emit.
    specialize (IH (w1 ++ [Println ("got error: " ++ err)])%list).
    rewrite opened_app, closed_app in IH. simpl in IH. lia.
  - simpl. lia.
Qed.

(** The loop never returns an error: it ends normally or by a panic. *)
Lemma _main_loop_no_error (location : time_Location) (stmts : list Stmt)
      (out : string) :
  forall (w : World) (err : error),
    fst (_main_loop location stmts out w) <> Err err.
Proof.
  induction stmts as [|stmt rest IH]; intros w err; [discriminate|].
  simpl. destruct (genOutput location stmt out w) as [[u|e|p] w1].
  - apply IH.
  - unfold bind, log_Println, emit. apply IH.
  - discriminate.
Qed.

(** A run never leaves a file open: over the calls a run adds to the trace,
    whatever fails or panics, as many files are closed as were opened or
    created with success. *)
Theorem run_closes_every_file_it_opens (flags : Flags) (w : World) :
  opened (snd (_main flags w)) + closed w =
  closed (snd (_main flags w)) + opened w.
Proof.
  unfold _main. destruct (time_LoadLocation (timezone flags)) as [loc|err];
    [|simpl; lia].
  unfold bind, call. destruct (os_Open w (input flags)).
  { simpl snd. rewrite opened_app, closed_app. simpl. lia. }
  unfold defer_Close.
  destruct (parser_Parse _ (input flags) ["IMAGE"]) as [stmts|err].
  - pose proof (_main_loop_balanced loc stmts (outputDir flags)
                  (w ++ [Open (input flags) None])%list) as Hb.
    destruct (_main_loop loc stmts (outputDir flags)
                (w ++ [Open (input flags) None])%list) as [r w'].
    simpl in Hb |- *. rewrite opened_app, closed_app in *. simpl in *. lia.
  - simpl snd. rewrite !opened_app, !closed_app. simpl. lia.
Qed.

(** The run fails early and quietly: when the location of the time zone flag
    cannot be loaded, [_main] returns that error and makes no call at all;
    when the input cannot be opened, [_main] returns that error after the one
    failed call, without parsing and with nothing to close. *)
Theorem run_fails_before_parsing (flags : Flags) (w : World) :
  (forall err : error,
      time_LoadLocation (timezone flags) = inr err ->
      _main flags w = (Err err, w)) /\
  (forall (loc : time_Location) (err : error),
      time_LoadLocation (timezone flags) = inl loc ->
      os_Open w (input flags) = Some err ->
      _main flags w = (Err err, (w ++ [Open (input flags) (Some err)])%list)).
Proof.
  split.
  - intros err H. unfold _main. rewrite H. reflexivity.
  - intros loc err Hl Ho. unfold _main. rewrite Hl. unfold bind, call.
    rewrite Ho. reflexivity.
Qed.

(** The errors of entries never become the error of the run: when [_main]
    returns an error, it is the error of loading the location, of opening the
    input or of parsing it. *)
Theorem run_error_is_load_open_or_parse
        (flags : Flags) (w w' : World) (err : error) :
  _main flags w = (Err err, w') ->
  time_LoadLocation (timezone flags) = inr err \/
  os_Open w (input flags) = Some err \/
  parser_Parse (w ++ [Open (input flags) None])%list (input flags) ["IMAGE"] =
    inr err.
Proof.
  unfold _main. destruct (time_LoadLocation (timezone flags)) as [loc|e].
  - unfold bind, call. destruct (os_Open w (input flags)) as [e|].
    + intros H. injection H as -> _. right. left. reflexivity.
    + unfold defer_Close.
      destruct (parser_Parse _ (input flags) ["IMAGE"]) as [stmts|e].
      * pose proof (_main_loop_no_error loc stmts (outputDir flags)
                      (w ++ [Open (input flags) None])%list err) as Hn.
        destruct (_main_loop loc stmts (outputDir flags)
                    (w ++ [Open (input flags) None])%list) as [r w1].
        intros H. injection H as -> _. exfalso. apply Hn. reflexivity.
      * intros H. injection H as -> _. right. right. reflexivity.
  - intros H. injection H as -> _. left. reflexivity.
Qed.

End RunTheorems.

(** ** Statements outside the grammar, and the file of an entry *)

Section RendererTheorems.

Context {L : GoLib} {S : GoSys}.
Variable location : time_Location.

(** [parseStmt] panics on every statement that is not an entry, and on an
    entry at the first element of the section list that is neither a normal
    nor a multi-line section, when the sections before it were read without
    error. *)
Theorem parseStmt_panics_outside_grammar :
  (forall stmt : Stmt,
      isEntryStmt stmt = false ->
      exists msg : string, parseStmt location stmt = ([], Panic msg)) /\
  (forall (pre post : list Stmt) (x : Stmt) (logs : list string) (data : Data),
      parseStmt location (EntryStmt pre) = (logs, Ok data) ->
      isSectionStmt x = false ->
      parseStmt location (EntryStmt (pre ++ x :: post)) =
        (logs, Panic "not reach")).
Proof.
  split.
  - intros stmt H. destruct stmt; try discriminate H; eexists; reflexivity.
  - intros pre post x logs data H Hx. unfold parseStmt in *.
    rewrite (parseSections_app location pre (x :: post) Data_zero), H.
    destruct x; try discriminate Hx; simpl; now rewrite app_nil_r.
Qed.

(** A panic ends the batch: when the conversion of one statement panics
    after a run of parsed entries, the loop stops there with that panic, the
    statements after it leave no trace, and [_main] passes the panic on after
    closing the input. *)
Theorem panic_aborts_the_batch
        (pre post : list Stmt) (stmt : Stmt) (logs : list string) (p : string) :
  forallb isParsedEntry pre = true ->
  parseStmt location stmt = (logs, Panic p) ->
  (forall (out : string) (w : World),
      _main_loop location (pre ++ stmt :: post) out w =
        (Panic p, (snd (_main_loop location pre out w) ++ log_lines logs)%list)) /\
  (forall (flags : Flags) (w : World),
      time_LoadLocation (timezone flags) = inl location ->
      os_Open w (input flags) = None ->
      parser_Parse (w ++ [Open (input flags) None])%list (input flags)
                   ["IMAGE"] = inl (pre ++ stmt :: post)%list ->
      _main flags w =
        (Panic p,
         (snd (_main_loop location pre (outputDir flags)
                 (w ++ [Open (input flags) None])) ++
          log_lines logs ++ [Close (input flags)])%list)).
Proof.
  intros Hpre H.
  assert (Hloop : forall (out : string) (w : World),
    _main_loop location (pre ++ stmt :: post) out w =
    (Panic p, (snd (_main_loop location pre out w) ++ log_lines logs)%list)).
  { intros out w. rewrite _main_loop_app.
    pose proof (_main_loop_ok location pre out w Hpre) as Hok.
    destruct (_main_loop location pre out w) as [r w1]. simpl in Hok. subst r.
    simpl. unfold genOutput, bind, run_logged. rewrite H. reflexivity. }
  split; [exact Hloop|].
  intros flags w Hl Ho Hp.
  rewrite (_main_parsed location flags w _ Hl Ho Hp). unfold defer_Close.
  rewrite Hloop. rewrite <- app_assoc. reflexivity.
Qed.

(** [genOutput] returns nil exactly when the entry converts and the three
    calls succeed, and then it has made the directory of the entry's file,
    created the file, written the text of the template for the converted
    [Data] and closed the file, in this order and nothing else after the log
    lines of the conversion. *)
Theorem genOutput_nil_iff_file_written
        (stmt : Stmt) (out : string) (w w' : World) :
  genOutput location stmt out w = (Ok tt, w') <->
  exists (logs : list string) (data : Data),
    parseStmt location stmt = (logs, Ok data) /\
    let output := MarkdownFilename data out in
    let w1 := (w ++ log_lines logs)%list in
    let w2 := (w1 ++ [MkdirAll (filepath_Dir output) None])%list in
    let w3 := (w2 ++ [Create output None])%list in
    os_MkdirAll w1 (filepath_Dir output) = None /\
    os_Create w2 output = None /\
    template_Execute w3 output (contentTmpl data) = None /\
    w' = (w3 ++ [Execute output (contentTmpl data) None; Close output])%list.
Proof.
  unfold genOutput, bind, run_logged, call, defer_Close. split.
  - intros H.
    destruct (parseStmt location stmt) as [logs [data|err|p]]; simpl in H;
      try discriminate H.
    exists logs, data. split; [reflexivity|]. cbv zeta.
    destruct (os_MkdirAll (w ++ log_lines logs)%list
                (filepath_Dir (MarkdownFilename data out)));
      [discriminate H|].
    destruct (os_Create
                ((w ++ log_lines logs) ++
                 [MkdirAll (filepath_Dir (MarkdownFilename data out)) None])%list
                (MarkdownFilename data out));
      [discriminate H|].
    destruct (template_Execute
                (((w ++ log_lines logs) ++
                  [MkdirAll (filepath_Dir (MarkdownFilename data out)) None]) ++
                 [Create (MarkdownFilename data out) None])%list
                (MarkdownFilename data out) (contentTmpl data));
      [discriminate H|].
    injection H as <-. repeat split. rewrite <- app_assoc. reflexivity.
  - intros (logs & data & Hs & Hm & Hc & He & ->). rewrite Hs. simpl.
    rewrite Hm, Hc, He. rewrite <- app_assoc. reflexivity.
Qed.

(** A batch is converted entry after entry: the loop over two lists of
    statements, the first made of parsed entries, is the loop over the second
    list started in the world the first one leaves. *)
Theorem batches_compose (pre post : list Stmt) (out : string) (w : World) :
  forallb isParsedEntry pre = true ->
  _main_loop location (pre ++ post) out w =
  _main_loop location post out (snd (_main_loop location pre out w)).
Proof.
  intros Hpre. rewrite _main_loop_app.
  pose proof (_main_loop_ok location pre out w Hpre) as Hok.
  destruct (_main_loop location pre out w) as [r w1]. simpl in Hok. subst r.
  reflexivity.
Qed.

(** When [genOutput] returns an error, either the conversion failed and only
    its log lines were written, or the directory could not be made and no
    file was created, or the file could not be created and nothing was
    written, or the template could not be written and the created file was
    closed all the same. *)
Theorem genOutput_error_cases
        (stmt : Stmt) (out : string) (w w' : World) (err : error) :
  genOutput location stmt out w = (Err err, w') ->
  exists logs : list string,
    let w1 := (w ++ log_lines logs)%list in
    (parseStmt location stmt = (logs, Err err) /\ w' = w1) \/
    exists data : Data,
      parseStmt location stmt = (logs, Ok data) /\
      let output := MarkdownFilename data out in
      let dir := filepath_Dir output in
      let w2 := (w1 ++ [MkdirAll dir None])%list in
      let w3 := (w2 ++ [Create output None])%list in
      (os_MkdirAll w1 dir = Some err /\
       w' = (w1 ++ [MkdirAll dir (Some err)])%list) \/
      (os_MkdirAll w1 dir = None /\ os_Create w2 output = Some err /\
       w' = (w2 ++ [Create output (Some err)])%list) \/
      (os_MkdirAll w1 dir = None /\ os_Create w2 output = None /\
       template_Execute w3 output (contentTmpl data) = Some err /\
       w' = (w3 ++ [Execute output (contentTmpl data) (Some err);
                    Close output])%list).
Proof.
  unfold genOutput, bind, run_logged, call, defer_Close. intros H.
  destruct (parseStmt location stmt) as [logs [data|e|p]]; simpl in H;
    exists logs; cbv zeta.
  - right. exists data. split; [reflexivity|].
    destruct (os_MkdirAll (w ++ log_lines logs)%list
                (filepath_Dir (MarkdownFilename data out))) as [e1|].
    { injection H as -> <-. left. split; reflexivity. }
    destruct (os_Create
                ((w ++ log_lines logs) ++
                 [MkdirAll (filepath_Dir (MarkdownFilename data out)) None])%list
                (MarkdownFilename data out)) as [e2|].
    { injection H as -> <-. right. left. repeat split. }
    destruct (template_Execute
                (((w ++ log_lines logs) ++
                  [MkdirAll (filepath_Dir (MarkdownFilename data out)) None]) ++
                 [Create (MarkdownFilename data out) None])%list
                (MarkdownFilename data out) (contentTmpl data)) as [e3|];
      [|discriminate H].
    injection H as -> <-. right. right. repeat split.
    rewrite <- app_assoc. reflexivity.
  - injection H as -> <-. left. split; reflexivity.
  - discriminate H.
Qed.

End RendererTheorems.

(** ** What a converted entry holds *)

Section EntryTheorems.

Context {L : GoLib}.
Variable location : time_Location.

Lemma lastValue_app (key : string) (a b : list Stmt) :
  lastValue key (a ++ b) =
  match lastValue key b with
  | Some v => Some v
  | None => lastValue key a
  end.
Proof.
  induction a as [|x a IH]; simpl.
  - now destruct (lastValue key b).
  - destruct x as [| | |Key Value]; try exact IH.
    rewrite IH. now destruct (lastValue key b).
Qed.

(** A field section moves past a stored content without looking at it. *)
Lemma parseFieldSection_set_Content (FieldStmts : list Stmt) (body : string) :
  forall data : Data,
    parseFieldSection location FieldStmts (set_Content body data) =
    (set_Content body (fst (parseFieldSection location FieldStmts data)),
     snd (parseFieldSection location FieldStmts data)).
Proof.
  induction FieldStmts as [|x rest IH]; intros data; [reflexivity|].
  destruct x as [| | |Key Value]; try reflexivity.
  simpl.
  destruct (Key =? "TITLE");
    [exact (IH (set_Title (strings_TrimSpace Value) data))|].
  destruct (Key =? "STATUS").
  { destruct (strings_ToLower (strings_TrimSpace Value) =? "draft");
      [exact (IH (set_Draft true data))|].
    destruct (strings_ToLower (strings_TrimSpace Value) =? "publish");
      [exact (IH (set_Draft false data))|reflexivity]. }
  destruct (Key =? "DATE").
  { destruct (time_ParseInLocation "01/02/2006 15:04:05"
                (strings_TrimSpace Value) location) as [t|err];
      [exact (IH (set_Date t data))|reflexivity]. }
  destruct (Key =? "BASENAME");
    [exact (IH (set_Basename (strings_TrimSpace Value) data))|].
  destruct (Key =? "CATEGORY");
    [exact (IH (set_Tags (Tags data ++ [strings_TrimSpace Value])%list data))|].
  apply IH.
Qed.

Lemma parseFieldSection_Content (FieldStmts : list Stmt) :
  forall data : Data,
    Content (fst (parseFieldSection location FieldStmts data)) = Content data.
Proof.
  induction FieldStmts as [|x rest IH]; intros data; [reflexivity|].
  destruct x as [| | |Key Value]; try reflexivity.
  simpl.
  destruct (Key =? "TITLE"); [now rewrite IH|].
  destruct (Key =? "STATUS").
  { destruct (strings_ToLower (strings_TrimSpace Value) =? "draft");
      [now rewrite IH|].
    destruct (strings_ToLower (strings_TrimSpace Value) =? "publish");
      [now rewrite IH|reflexivity]. }
  destruct (Key =? "DATE").
  { destruct (time_ParseInLocation "01/02/2006 15:04:05"
                (strings_TrimSpace Value) location);
      [now rewrite IH|reflexivity]. }
  destruct (Key =? "BASENAME"); [now rewrite IH|].
  destruct (Key =? "CATEGORY"); [now rewrite IH|].
  apply IH.
Qed.

Lemma parseSections_Content (SectionStmts : list Stmt) :
  forall (data data' : Data) (logs : list string),
    parseSections location SectionStmts data = (logs, Ok data') ->
    Content data' =
    match lastBody SectionStmts with
    | Some b => b
    | None => Content data
    end.
Proof.
  induction SectionStmts as [|x rest IH]; intros data data' logs H.
  - simpl in H. injection H as _ <-. reflexivity.
  - destruct x as [|FieldStmts|Key Body|]; try discriminate H.
    + simpl in H. simpl lastBody.
      pose proof (parseFieldSection_Content FieldStmts data) as Hc.
      destruct (parseFieldSection location FieldStmts data) as [d1 [err|]];
        [discriminate H|].
      rewrite (IH _ _ _ H). simpl in Hc. rewrite Hc. reflexivity.
    + simpl in H. simpl lastBody.
      destruct (Key =? "BODY").
      { rewrite (IH _ _ _ H). now destruct (lastBody rest). }
      destruct (Key =? "COMMENT").
      { destruct (parseSections location rest data) as [l r] eqn:E.
        unfold after_Println in H. simpl in H. injection H as _ ->.
        rewrite (IH _ _ _ E). now destruct (lastBody rest). }
      destruct (Key =? "EXCERPT").
      { destruct (parseSections location rest data) as [l r] eqn:E.
        unfold after_Println in H. simpl in H. injection H as _ ->.
        rewrite (IH _ _ _ E). now destruct (lastBody rest). }
      discriminate H.
Qed.

Lemma parseSections_logs (SectionStmts : list Stmt) :
  forall (data data' : Data) (logs : list string),
    parseSections location SectionStmts data = (logs, Ok data') ->
    logs = ignoredLines SectionStmts.
Proof.
  induction SectionStmts as [|x rest IH]; intros data data' logs H.
  - simpl in H. injection H as <- _. reflexivity.
  - destruct x as [|FieldStmts|Key Body|]; try discriminate H.
    + simpl in H.
      destruct (parseFieldSection location FieldStmts data) as [d1 [err|]];
        [discriminate H|].
      exact (IH _ _ _ H).
    + simpl in H. simpl ignoredLines.
      destruct (String.eqb_spec Key "BODY") as [->|_].
      { exact (IH _ _ _ H). }
      destruct (String.eqb_spec Key "COMMENT") as [->|_].
      { destruct (parseSections location rest data) as [l r] eqn:E.
        unfold after_Println in H. simpl in H. injection H as <- ->.
        simpl. now rewrite (IH _ _ _ E). }
      destruct (String.eqb_spec Key "EXCERPT") as [->|_].
      { destruct (parseSections location rest data) as [l r] eqn:E.
        unfold after_Println in H. simpl in H. injection H as <- ->.
        simpl. now rewrite (IH _ _ _ E). }
      discriminate H.
Qed.

(** The content of a converted entry is the body of its last BODY section,
    and the empty string when it has none; the lines logged by the
    conversion are one line for each COMMENT and EXCERPT section, in order. *)
Theorem converted_entry_content_and_log
        (SectionStmts : list Stmt) (logs : list string) (data : Data) :
  parseStmt location (EntryStmt SectionStmts) = (logs, Ok data) ->
  Content data =
    match lastBody SectionStmts with
    | Some b => b
    | None => EmptyString
    end /\
  logs = ignoredLines SectionStmts.
Proof.
  unfold parseStmt. intros H. split.
  - rewrite (parseSections_Content _ _ _ _ H). reflexivity.
  - exact (parseSections_logs _ _ _ _ H).
Qed.

(** A BODY section and the normal section after it can change places: the
    conversion gives the same result and the same log lines. *)
Theorem body_commutes_with_normal_section
        (pre post FieldStmts : list Stmt) (Body : string) :
  parseStmt location
    (EntryStmt (pre ++ MultilineSectionStmt "BODY" Body ::
                       NormalSectionStmt FieldStmts :: post)) =
  parseStmt location
    (EntryStmt (pre ++ NormalSectionStmt FieldStmts ::
                       MultilineSectionStmt "BODY" Body :: post)).
Proof.
  unfold parseStmt.
  rewrite (parseSections_app location pre
             (MultilineSectionStmt "BODY" Body ::
              NormalSectionStmt FieldStmts :: post) Data_zero).
  rewrite (parseSections_app location pre
             (NormalSectionStmt FieldStmts ::
              MultilineSectionStmt "BODY" Body :: post) Data_zero).
  destruct (parseSections location pre Data_zero) as [l [d|e|p]];
    try reflexivity.
  cbn [parseSections]. cbn [String.eqb Ascii.eqb Bool.eqb].
  rewrite parseFieldSection_set_Content.
  destruct (parseFieldSection location FieldStmts d) as [d1 [err|]];
    reflexivity.
Qed.

(** *** The last field of a key decides *)

Lemma parseFieldSection_last_values (FieldStmts : list Stmt) :
  forall data data' : Data,
    forallb isFieldStmt FieldStmts = true ->
    parseFieldSection location FieldStmts data = (data', None) ->
    Title data' =
      match lastValue "TITLE" FieldStmts with
      | Some v => strings_TrimSpace v
      | None => Title data
      end /\
    Basename data' =
      match lastValue "BASENAME" FieldStmts with
      | Some v => strings_TrimSpace v
      | None => Basename data
      end /\
    Draft data' =
      match lastValue "STATUS" FieldStmts with
      | Some v => strings_ToLower (strings_TrimSpace v) =? "draft"
      | None => Draft data
      end /\
    match lastValue "DATE" FieldStmts with
    | Some v =>
        time_ParseInLocation "01/02/2006 15:04:05" (strings_TrimSpace v)
          location = inl (Date data')
    | None => Date data' = Date data
    end.
Proof.
  induction FieldStmts as [|x rest IH]; intros data data' Hf H.
  - simpl in H. injection H as <-. simpl. auto.
  - simpl in Hf. apply andb_true_iff in Hf as [Hx Hrest].
    destruct x as [| | |Key Value]; try discriminate Hx.
    revert H. simpl.
    destruct (String.eqb_spec Key "TITLE") as [->|_].
    { simpl. intros H.
      destruct (IH _ _ Hrest H) as (IT & IB & ID & IDt).
      simpl in IT, IB, ID, IDt. repeat split.
      - rewrite IT. now destruct (lastValue "TITLE" rest).
      - rewrite IB. now destruct (lastValue "BASENAME" rest).
      - rewrite ID. now destruct (lastValue "STATUS" rest).
      - now destruct (lastValue "DATE" rest). }
    destruct (String.eqb_spec Key "STATUS") as [->|_].
    { simpl.
      destruct (strings_ToLower (strings_TrimSpace Value) =? "draft") eqn:E1.
      { intros H. destruct (IH _ _ Hrest H) as (IT & IB & ID & IDt).
        simpl in IT, IB, ID, IDt. repeat split.
        - rewrite IT. now destruct (lastValue "TITLE" rest).
        - rewrite IB. now destruct (lastValue "BASENAME" rest).
        - rewrite ID. destruct (lastValue "STATUS" rest);
            [reflexivity|symmetry; exact E1].
        - now destruct (lastValue "DATE" rest). }
      destruct (strings_ToLower (strings_TrimSpace Value) =? "publish");
        [|discriminate].
      intros H. destruct (IH _ _ Hrest H) as (IT & IB & ID & IDt).
      simpl in IT, IB, ID, IDt. repeat split.
      - rewrite IT. now destruct (lastValue "TITLE" rest).
      - rewrite IB. now destruct (lastValue "BASENAME" rest).
      - rewrite ID. destruct (lastValue "STATUS" rest);
          [reflexivity|symmetry; exact E1].
      - now destruct (lastValue "DATE" rest). }
    destruct (String.eqb_spec Key "DATE") as [->|_].
    { simpl.
      destruct (time_ParseInLocation "01/02/2006 15:04:05"
                  (strings_TrimSpace Value) location) as [t|err] eqn:E;
        [|discriminate].
      intros H. destruct (IH _ _ Hrest H) as (IT & IB & ID & IDt).
      simpl in IT, IB, ID, IDt. repeat split.
      - rewrite IT. now destruct (lastValue "TITLE" rest).
      - rewrite IB. now destruct (lastValue "BASENAME" rest).
      - rewrite ID. now destruct (lastValue "STATUS" rest).
      - destruct (lastValue "DATE" rest); [exact IDt|].
        rewrite IDt. exact E. }
    destruct (String.eqb_spec Key "BASENAME") as [->|_].
    { simpl. intros H.
      destruct (IH _ _ Hrest H) as (IT & IB & ID & IDt).
      simpl in IT, IB, ID, IDt. repeat split.
      - rewrite IT. now destruct (lastValue "TITLE" rest).
      - rewrite IB. now destruct (lastValue "BASENAME" rest).
      - rewrite ID. now destruct (lastValue "STATUS" rest).
      - now destruct (lastValue "DATE" rest). }
    destruct (String.eqb_spec Key "CATEGORY") as [->|_].
    { simpl. intros H.
      destruct (IH _ _ Hrest H) as (IT & IB & ID & IDt).
      simpl in IT, IB, ID, IDt. repeat split.
      - rewrite IT. now destruct (lastValue "TITLE" rest).
      - rewrite IB. now destruct (lastValue "BASENAME" rest).
      - rewrite ID. now destruct (lastValue "STATUS" rest).
      - now destruct (lastValue "DATE" rest). }
    intros H. destruct (IH _ _ Hrest H) as (IT & IB & ID & IDt).
    repeat split.
    + rewrite IT. now destruct (lastValue "TITLE" rest).
    + rewrite IB. now destruct (lastValue "BASENAME" rest).
    + rewrite ID. now destruct (lastValue "STATUS" rest).
    + now destruct (lastValue "DATE" rest).
Qed.

Lemma parseSections_last_values (SectionStmts : list Stmt) :
  forall (data data' : Data) (logs : list string),
    forallb isParsedSection SectionStmts = true ->
    parseSections location SectionStmts data = (logs, Ok data') ->
    Title data' =
      match lastValue "TITLE" (entryFieldStmts SectionStmts) with
      | Some v => strings_TrimSpace v
      | None => Title data
      end /\
    Basename data' =
      match lastValue "BASENAME" (entryFieldStmts SectionStmts) with
      | Some v => strings_TrimSpace v
      | None => Basename data
      end /\
    Draft data' =
      match lastValue "STATUS" (entryFieldStmts SectionStmts) with
      | Some v => strings_ToLower (strings_TrimSpace v) =? "draft"
      | None => Draft data
      end /\
    match lastValue "DATE" (entryFieldStmts SectionStmts) with
    | Some v =>
        time_ParseInLocation "01/02/2006 15:04:05" (strings_TrimSpace v)
          location = inl (Date data')
    | None => Date data' = Date data
    end.
Proof.
  induction SectionStmts as [|x rest IH]; intros data data' logs Hf H.
  - simpl in H. injection H as _ <-. simpl. auto.
  - simpl in Hf. apply andb_true_iff in Hf as [Hx Hrest].
    destruct x as [|FieldStmts|Key Body|]; try discriminate Hx.
    + simpl in H, Hx. simpl entryFieldStmts.
      destruct (parseFieldSection location FieldStmts data) as [d1 [err|]] eqn:E;
        [discriminate H|].
      destruct (IH _ _ _ Hrest H) as (IT & IB & ID & IDt).
      destruct (parseFieldSection_last_values _ _ _ Hx E) as (ST & SB & SD & SDt).
      rewrite !lastValue_app. repeat split.
      * rewrite IT. destruct (lastValue "TITLE" (entryFieldStmts rest));
          [reflexivity|exact ST].
      * rewrite IB. destruct (lastValue "BASENAME" (entryFieldStmts rest));
          [reflexivity|exact SB].
      * rewrite ID. destruct (lastValue "STATUS" (entryFieldStmts rest));
          [reflexivity|exact SD].
      * destruct (lastValue "DATE" (entryFieldStmts rest)); [exact IDt|].
        destruct (lastValue "DATE" FieldStmts).
        -- rewrite IDt. exact SDt.
        -- rewrite IDt. exact SDt.
    + simpl in H. simpl entryFieldStmts.
      destruct (Key =? "BODY"); [exact (IH _ _ _ Hrest H)|].
      destruct (Key =? "COMMENT").
      { destruct (parseSections location rest data) as [l r] eqn:E.
        unfold after_Println in H. simpl in H. injection H as _ ->.
        exact (IH _ _ _ Hrest E). }
      destruct (Key =? "EXCERPT").
      { destruct (parseSections location rest data) as [l r] eqn:E.
        unfold after_Println in H. simpl in H. injection H as _ ->.
        exact (IH _ _ _ Hrest E). }
      discriminate H.
Qed.

(** In a converted entry of parsed sections the last TITLE, BASENAME, STATUS
    and DATE field of the entry decides: title and base name are its trimmed
    value, the entry is a draft exactly when its status reads draft, the date
    is its parsed value.  Without such a field the entry has the zero value:
    no title, not a draft, the zero time, and an empty base name, so that the
    file of the entry is the file [.md] of the output directory. *)
Theorem last_field_of_a_key_decides
        (SectionStmts : list Stmt) (logs : list string) (data : Data) :
  forallb isParsedSection SectionStmts = true ->
  parseStmt location (EntryStmt SectionStmts) = (logs, Ok data) ->
  let fields := entryFieldStmts SectionStmts in
  Title data =
    match lastValue "TITLE" fields with
    | Some v => strings_TrimSpace v
    | None => EmptyString
    end /\
  Basename data =
    match lastValue "BASENAME" fields with
    | Some v => strings_TrimSpace v
    | None => EmptyString
    end /\
  Draft data =
    match lastValue "STATUS" fields with
    | Some v => strings_ToLower (strings_TrimSpace v) =? "draft"
    | None => false
    end /\
  match lastValue "DATE" fields with
  | Some v =>
      time_ParseInLocation "01/02/2006 15:04:05" (strings_TrimSpace v)
        location = inl (Date data)
  | None => Date data = zeroTime
  end /\
  (lastValue "BASENAME" fields = None ->
   forall outputDir : string,
     MarkdownFilename data outputDir = filepath_Join [outputDir; ".md"]).
Proof.
  intros Hf H fields. unfold parseStmt in H.
  destruct (parseSections_last_values _ _ _ _ Hf H) as (IT & IB & ID & IDt).
  fold fields in IT, IB, ID, IDt.
  split; [exact IT|]. split; [exact IB|]. split; [exact ID|].
  split; [exact IDt|].
  intros Hn outputDir. unfold MarkdownFilename. rewrite IB, Hn. reflexivity.
Qed.

(** The conversion stops at the first section that fails or panics: the
    sections after it are not read, whatever they are. *)
Theorem conversion_stops_at_first_failure
        (pre post : list Stmt) (logs : list string) :
  (forall err : error,
      parseStmt location (EntryStmt pre) = (logs, Err err) ->
      parseStmt location (EntryStmt (pre ++ post)) = (logs, Err err)) /\
  (forall p : string,
      parseStmt location (EntryStmt pre) = (logs, Panic p) ->
      parseStmt location (EntryStmt (pre ++ post)) = (logs, Panic p)).
Proof.
  unfold parseStmt. split; intros e H;
    rewrite (parseSections_app location pre post Data_zero), H; reflexivity.
Qed.

End EntryTheorems.

(** ** Tags are written as they are *)

Section QuotingTheorems.

Context {L : GoLib}.

Lemma TagsAsString_bracketed (d : Data) :
  TagsAsString d = bracketed_tags (Tags d).
Proof.
  unfold TagsAsString, bracketed_tags. rewrite fold_left_snoc. simpl app.
  destruct (Tags d) as [|tag rest]; [reflexivity|].
  simpl map. rewrite strings_Join_cons, quoted_comma_separated_cons.
  reflexivity.
Qed.

Lemma separated_app (l1 l2 : list string) :
  fold_right (fun s r => ", " ++ s ++ r) EmptyString (l1 ++ l2) =
  fold_right (fun s r => ", " ++ s ++ r) EmptyString l1 ++
  fold_right (fun s r => ", " ++ s ++ r) EmptyString l2.
Proof.
  induction l1 as [|s l1 IH]; [reflexivity|].
  cbn [app fold_right]. rewrite IH, !append_assoc. reflexivity.
Qed.

Lemma quoted_unescaped (a b : string) :
  Sprintf_quoted (a ++ dquote ++ ", " ++ dquote ++ b) =
  Sprintf_quoted a ++ ", " ++ Sprintf_quoted b.
Proof.
  unfold Sprintf_quoted. rewrite !append_assoc. reflexivity.
Qed.

(** [TagsAsString] does not escape the tags: a tag that holds a double
    quote, a comma, a space and a double quote is written exactly as the two
    tags around them, wherever it stands in the tag list. *)
Theorem tags_are_not_escaped (d : Data) (pre post : list string) (a b : string) :
  TagsAsString
    (set_Tags
       (pre ++ (a ++ dquote ++ ", " ++ dquote ++ b)%string :: post)%list d) =
  TagsAsString (set_Tags (pre ++ a :: b :: post)%list d).
Proof.
  rewrite !TagsAsString_bracketed. unfold bracketed_tags, set_Tags.
  cbn [Tags]. f_equal. f_equal.
  destruct pre as [|p pre].
  - cbn [app]. rewrite !quoted_comma_separated_cons. cbn [map fold_right].
    rewrite quoted_unescaped, !append_assoc. reflexivity.
  - cbn [app]. rewrite !quoted_comma_separated_cons. f_equal.
    rewrite !map_app, !separated_app. f_equal.
    cbn [map fold_right]. rewrite quoted_unescaped, !append_assoc.
    reflexivity.
Qed.

End QuotingTheorems.

(** ** More of the program on concrete input *)

Lemma run_fails_before_parsing_witness :
  (@time_LoadLocation TestLib "Nowhere/None" =
     inr "unknown time zone Nowhere/None" /\
   @_main TestLib (TestSys sampleFiles)
     (mkFlags "export.txt" "content" "Nowhere/None") [] =
     (Err "unknown time zone Nowhere/None", [])) /\
  (@time_LoadLocation TestLib "Asia/Tokyo" = inl Tokyo /\
   @os_Open TestSysNoInput [] "missing.txt" =
     Some "open missing.txt: no such file or directory" /\
   @_main TestLib TestSysNoInput
     (mkFlags "missing.txt" "content" "Asia/Tokyo") [] =
     (Err "open missing.txt: no such file or directory",
      [Open "missing.txt"
         (Some "open missing.txt: no such file or directory")])).
Proof.
  split.
  - split; [reflexivity|].
    exact (proj1 (@run_fails_before_parsing TestLib (TestSys sampleFiles)
             (mkFlags "export.txt" "content" "Nowhere/None") [])
             "unknown time zone Nowhere/None" eq_refl).
  - split; [reflexivity|]. split; [reflexivity|].
    exact (proj2 (@run_fails_before_parsing TestLib TestSysNoInput
             (mkFlags "missing.txt" "content" "Asia/Tokyo") [])
             Tokyo "open missing.txt: no such file or directory"
             eq_refl eq_refl).
Defined.

Lemma run_error_witness :
  @_main TestLib (TestSys sampleFiles)
    (mkFlags "broken.txt" "content" "Asia/Tokyo") [] =
    (Err "line 3: unterminated multiline section",
     [Open "broken.txt" None; Close "broken.txt"]) /\
  (@time_LoadLocation TestLib "Asia/Tokyo" =
     inr "line 3: unterminated multiline section" \/
   @os_Open (TestSys sampleFiles) [] "broken.txt" =
     Some "line 3: unterminated multiline section" \/
   @parser_Parse (TestSys sampleFiles) [Open "broken.txt" None] "broken.txt"
     ["IMAGE"] = inr "line 3: unterminated multiline section").
Proof.
  split; [reflexivity|].
  exact (@run_error_is_load_open_or_parse TestLib (TestSys sampleFiles)
           (mkFlags "broken.txt" "content" "Asia/Tokyo") []
           [Open "broken.txt" None; Close "broken.txt"]
           "line 3: unterminated multiline section" eq_refl).
Defined.

Lemma parseStmt_panics_witness :
  (isEntryStmt strayStmt = false /\
   exists msg : string, @parseStmt TestLib Tokyo strayStmt = ([], Panic msg)) /\
  (@parseStmt TestLib Tokyo
     (EntryStmt [MultilineSectionStmt "COMMENT" "nice"]) =
     (["COMMENT is ignored"], Ok Data_zero) /\
   isSectionStmt strayStmt = false /\
   @parseStmt TestLib Tokyo
     (EntryStmt ([MultilineSectionStmt "COMMENT" "nice"] ++
                 strayStmt :: [MultilineSectionStmt "BODY" "text"])) =
     (["COMMENT is ignored"], Panic "not reach")).
Proof.
  split.
  - split; [reflexivity|].
    exact (proj1 (@parseStmt_panics_outside_grammar TestLib Tokyo)
             strayStmt eq_refl).
  - split; [reflexivity|]. split; [reflexivity|].
    exact (proj2 (@parseStmt_panics_outside_grammar TestLib Tokyo)
             [MultilineSectionStmt "COMMENT" "nice"]
             [MultilineSectionStmt "BODY" "text"] strayStmt
             ["COMMENT is ignored"] Data_zero eq_refl eq_refl).
Defined.

Lemma panic_aborts_the_batch_witness :
  forallb isParsedEntry [helloEntry] = true /\
  @parseStmt TestLib Tokyo strayStmt =
    ([], Panic "interface conversion: ast.Stmt is not *ast.EntryStmt") /\
  @_main_loop TestLib (TestSys strayFiles) Tokyo
    ([helloEntry] ++ strayStmt :: [helloEntry]) "content" [] =
    (Panic "interface conversion: ast.Stmt is not *ast.EntryStmt",
     (snd (@_main_loop TestLib (TestSys strayFiles) Tokyo [helloEntry]
             "content" []) ++ log_lines [])%list) /\
  @_main TestLib (TestSys strayFiles)
    (mkFlags "export.txt" "content" "Asia/Tokyo") [] =
    (Panic "interface conversion: ast.Stmt is not *ast.EntryStmt",
     (snd (@_main_loop TestLib (TestSys strayFiles) Tokyo [helloEntry]
             "content" ([] ++ [Open "export.txt" None])) ++
      log_lines [] ++ [Close "export.txt"])%list).
Proof.
  assert (H1 : forallb isParsedEntry [helloEntry] = true) by reflexivity.
  assert (H2 : @parseStmt TestLib Tokyo strayStmt =
               ([], Panic "interface conversion: ast.Stmt is not *ast.EntryStmt"))
    by reflexivity.
  destruct (@panic_aborts_the_batch TestLib (TestSys strayFiles) Tokyo
              [helloEntry] [helloEntry] strayStmt [] _ H1 H2) as (A & B).
  split; [exact H1|]. split; [exact H2|]. split.
  - exact (A "content" []).
  - exact (B (mkFlags "export.txt" "content" "Asia/Tokyo") []
             eq_refl eq_refl eq_refl).
Defined.

Lemma genOutput_nil_witness :
  @genOutput TestLib (TestSys sampleFiles) Tokyo
    (EntryStmt noteSections) "content" [] =
    (Ok tt,
     [MkdirAll "content" None; Create "content/.md" None;
      Execute "content/.md"
        (@contentTmpl TestLib (set_Title "Note" Data_zero)) None;
      Close "content/.md"]) /\
  exists (logs : list string) (data : @Data TestLib),
    @parseStmt TestLib Tokyo (EntryStmt noteSections) = (logs, Ok data) /\
    data = set_Title "Note" Data_zero.
Proof.
  assert (H : @genOutput TestLib (TestSys sampleFiles) Tokyo
                (EntryStmt noteSections) "content" [] =
              (Ok tt,
               [MkdirAll "content" None; Create "content/.md" None;
                Execute "content/.md"
                  (@contentTmpl TestLib (set_Title "Note" Data_zero)) None;
                Close "content/.md"])) by reflexivity.
  split; [exact H|].
  destruct (proj1 (@genOutput_nil_iff_file_written TestLib (TestSys sampleFiles)
                     Tokyo (EntryStmt noteSections) "content" [] _) H)
    as (logs & data & Hs & _).
  exists logs, data. split; [exact Hs|].
  unfold parseStmt in Hs. simpl in Hs. injection Hs as _ <-. reflexivity.
Defined.

Lemma converted_entry_witness :
  @parseStmt TestLib Tokyo (EntryStmt helloSections) =
    (["COMMENT is ignored"],
     Ok (mkData "2016/01/02/hello" ["go"; "hugo"; "go"] false "Hello"
           ("01/02/2016 15:04:05 Asia/Tokyo" : @time_Time TestLib)
           "line one")) /\
  "line one" =
    match lastBody helloSections with
    | Some b => b
    | None => EmptyString
    end /\
  ["COMMENT is ignored"] = ignoredLines helloSections.
Proof.
  assert (H : @parseStmt TestLib Tokyo (EntryStmt helloSections) =
    (["COMMENT is ignored"],
     Ok (mkData "2016/01/02/hello" ["go"; "hugo"; "go"] false "Hello"
           ("01/02/2016 15:04:05 Asia/Tokyo" : @time_Time TestLib)
           "line one"))) by reflexivity.
  split; [exact H|].
  exact (@converted_entry_content_and_log TestLib Tokyo helloSections _ _ H).
Defined.

Lemma last_field_witness :
  forallb isParsedSection noteSections = true /\
  @parseStmt TestLib Tokyo (EntryStmt noteSections) =
    ([], Ok (set_Title "Note" Data_zero)) /\
  lastValue "BASENAME" (entryFieldStmts noteSections) = None /\
  @MarkdownFilename TestLib (set_Title "Note" Data_zero) "content" =
    "content/.md".
Proof.
  assert (H1 : forallb isParsedSection noteSections = true) by reflexivity.
  assert (H2 : @parseStmt TestLib Tokyo (EntryStmt noteSections) =
               ([], Ok (set_Title "Note" Data_zero))) by reflexivity.
  assert (H3 : lastValue "BASENAME" (entryFieldStmts noteSections) = None)
    by reflexivity.
  split; [exact H1|]. split; [exact H2|]. split; [exact H3|].
  exact (proj2 (proj2 (proj2 (proj2
           (@last_field_of_a_key_decides TestLib Tokyo noteSections _ _ H1 H2))))
           H3 "content").
Defined.

Lemma conversion_stops_witness :
  (@parseStmt TestLib Tokyo
     (EntryStmt [NormalSectionStmt [FieldStmt "STATUS" " Future"]]) =
     ([], Err "not supported status: Future") /\
   @parseStmt TestLib Tokyo
     (EntryStmt ([NormalSectionStmt [FieldStmt "STATUS" " Future"]] ++
                 [strayStmt; MultilineSectionStmt "IMAGE" "pic.png"])) =
     ([], Err "not supported status: Future")) /\
  (@parseStmt TestLib Tokyo (EntryStmt [strayStmt]) = ([], Panic "not reach") /\
   @parseStmt TestLib Tokyo
     (EntryStmt ([strayStmt] ++ [MultilineSectionStmt "BODY" "text"])) =
     ([], Panic "not reach")).
Proof.
  split.
  - split; [reflexivity|].
    exact (proj1 (@conversion_stops_at_first_failure TestLib Tokyo
             [NormalSectionStmt [FieldStmt "STATUS" " Future"]]
             [strayStmt; MultilineSectionStmt "IMAGE" "pic.png"] [])
             _ eq_refl).
  - split; [reflexivity|].
    exact (proj2 (@conversion_stops_at_first_failure TestLib Tokyo
             [strayStmt] [MultilineSectionStmt "BODY" "text"] [])
             _ eq_refl).
Defined.

Lemma batches_compose_witness :
  forallb isParsedEntry [badStatusEntry] = true /\
  @_main_loop TestLib (TestSys sampleFiles) Tokyo
    ([badStatusEntry] ++ [helloEntry]) "content" [] =
  @_main_loop TestLib (TestSys sampleFiles) Tokyo [helloEntry] "content"
    (snd (@_main_loop TestLib (TestSys sampleFiles) Tokyo [badStatusEntry]
            "content" [])).
Proof.
  split; [reflexivity|].
  exact (@batches_compose TestLib (TestSys sampleFiles) Tokyo
           [badStatusEntry] [helloEntry] "content" [] eq_refl).
Defined.

Lemma genOutput_error_witness :
  @genOutput TestLib (TestSys sampleFiles) Tokyo badStatusEntry "content" [] =
    (Err "not supported status: Future", []) /\
  exists logs : list string,
    (@parseStmt TestLib Tokyo badStatusEntry =
       (logs, Err "not supported status: Future") /\
     ([] : World) = ([] ++ log_lines logs)%list) \/
    exists data : @Data TestLib,
      @parseStmt TestLib Tokyo badStatusEntry = (logs, Ok data).
Proof.
  assert (H : @genOutput TestLib (TestSys sampleFiles) Tokyo badStatusEntry
                "content" [] = (Err "not supported status: Future", []))
    by reflexivity.
  split; [exact H|].
  destruct (@genOutput_error_cases TestLib (TestSys sampleFiles) Tokyo
              badStatusEntry "content" [] [] _ H) as (logs & [A|(data & B & _)]).
  - exists logs. left. exact A.
  - exists logs. right. exists data. exact B.
Defined.
